(** * GIIS lab1: the drawing application and its line rasterizers

    [src/lab1/main.py] is a Tk window: two clicks on a grid pick the
    endpoints of a segment, the selected line algorithm turns them into
    coloured cells, and the cells are painted on the canvas as rectangles.

    The development has two parts.

    - [Rasterizer]: the three line algorithms.  The module
      [scripts/line_algorithms.py] that [main.py] imports is not part of the
      sources at hand, so the algorithms are modelled from section 4.1 of the
      specification.
    - [App]: the class [DrawingApp] of [main.py], as explicit state passing
      over a record of its attributes, the canvas, the message boxes, the
      standard output and the pending [after] timers.  The construction of
      the menu and [_launch_script], which runs an external script, have no
      part in what is proved and are left out.

    The properties follow in [RasterizerProofs] and [AppProofs]. *)

From Stdlib Require Import ZArith QArith Qround Qfield Lia Lqa List Bool String Ascii.
From Stdlib Require Import DecimalString.
Import ListNotations.

Local Open Scope Z_scope.

(* ================================================================== *)
(** * Part I: the rasterizers (modelled from the specification)        *)
(* ================================================================== *)

Module Rasterizer.

(** A coloured cell: grid coordinates and the opacity of the foreground
    colour over the background, [1] being fully opaque. *)
Definition Cell : Type := (Z * Z * Q)%type.

Definition cell_x (c : Cell) : Z := fst (fst c).
Definition cell_y (c : Cell) : Z := snd (fst c).
Definition opacity (c : Cell) : Q := snd c.

Definition opaque : Q := 1%Q.

(** [plot steep major minor w]: a cell given by its coordinate on the
    dominant axis and on the other one.  When the dominant axis is y
    ([steep]) the roles of x and y are swapped. *)
Definition plot (steep : bool) (major minor : Z) (w : Q) : Cell :=
  if steep then (minor, major, w) else (major, minor, w).

(** ** Bresenham *)

(** Modelled from the spec: the class [Bresenham] of
    [scripts/line_algorithms.py], which is missing from the sources.
    Section 4.1: an integer-only incremental algorithm; one unit along the
    dominant axis per iteration; a decision error, initialised to
    [2 * minor_delta - major_delta], tells when the minor axis advances by one
    unit; directions are [sign dx] and [sign dy]; every cell is opaque.

    An error of exactly zero means that the ideal line passes half-way
    between two cells.  [strict = false] advances the minor axis when
    [0 <= err], [strict = true] when [0 < err]. *)
Fixpoint bresenham_loop (strict steep : bool) (n : nat)
    (major minor s_major s_minor d_major d_minor err : Z) : list Cell :=
  match n with
  | O => []
  | S n' =>
      let advance := if strict then 0 <? err else 0 <=? err in
      let minor' := if advance then minor + s_minor else minor in
      let err' := if advance then err - 2 * d_major else err in
      plot steep major minor opaque ::
      bresenham_loop strict steep n' (major + s_major) minor'
                     s_major s_minor d_major d_minor (err' + 2 * d_minor)
  end.

Definition Bresenham_with (strict : bool) (x0 y0 x1 y1 : Z) : list Cell :=
  let dx := x1 - x0 in
  let dy := y1 - y0 in
  if Z.abs dy <=? Z.abs dx
  then bresenham_loop strict false (S (Z.to_nat (Z.abs dx)))
         x0 y0 (Z.sgn dx) (Z.sgn dy) (Z.abs dx) (Z.abs dy)
         (2 * Z.abs dy - Z.abs dx)
  else bresenham_loop strict true (S (Z.to_nat (Z.abs dy)))
         y0 x0 (Z.sgn dy) (Z.sgn dx) (Z.abs dy) (Z.abs dx)
         (2 * Z.abs dx - Z.abs dy).

(** The reading of a zero error.  Section 8 requires (start, end) and
    (end, start) to give the same cells, so a sample half-way between two
    cells has to go to the same cell in both directions: it goes to the one
    with the larger coordinate on the minor axis.  Walking towards larger
    coordinates that is an advance on a zero error, walking towards smaller
    ones it is not. *)
Definition zero_error_strict (x0 y0 x1 y1 : Z) : bool :=
  if Z.abs (y1 - y0) <=? Z.abs (x1 - x0)
  then Z.sgn (y1 - y0) <? 0
  else Z.sgn (x1 - x0) <? 0.

Definition Bresenham (x0 y0 x1 y1 : Z) : list Cell :=
  Bresenham_with (zero_error_strict x0 y0 x1 y1) x0 y0 x1 y1.

(** ** DDA *)

(** Rounding to the nearest integer, halves upwards. *)
Definition round_nearest (q : Q) : Z := Qfloor (q + (1 # 2)).

(** Modelled from the spec: the class [DDA] of [scripts/line_algorithms.py],
    which is missing from the sources.  Section 4.1:
    [steps = max(|dx|, |dy|)]; no step gives the start cell alone; otherwise
    the increments [dx / steps] and [dy / steps] are accumulated from the
    start and each of the [steps + 1] samples is rounded to the nearest cell.
    The specification's real-valued quantities are exact rationals here. *)
Fixpoint dda_loop (n : nat) (x y x_inc y_inc : Q) : list Cell :=
  match n with
  | O => []
  | S n' =>
      (round_nearest x, round_nearest y, opaque) ::
      dda_loop n' (x + x_inc)%Q (y + y_inc)%Q x_inc y_inc
  end.

Definition DDA (x0 y0 x1 y1 : Z) : list Cell :=
  let dx := x1 - x0 in
  let dy := y1 - y0 in
  let steps := Z.max (Z.abs dx) (Z.abs dy) in
  if steps =? 0 then [(x0, y0, opaque)]
  else
    let x_inc := (inject_Z dx / inject_Z steps)%Q in
    let y_inc := (inject_Z dy / inject_Z steps)%Q in
    dda_loop (S (Z.to_nat steps)) (inject_Z x0) (inject_Z y0) x_inc y_inc.

(** ** Wu *)

(** Fractional part of a rational. *)
Definition frac (v : Q) : Q := (v - inject_Z (Qfloor v))%Q.

(** The cells of one sample: the cell at [floor v] with weight
    [1 - frac v] and the next one with weight [frac v].  A sample that falls
    exactly on a cell needs no blending and gives that cell alone, fully
    opaque (section 8: a horizontal segment returns its cells opaque, one
    per sample). *)
Definition wu_pair (steep : bool) (major : Z) (v : Q) : list Cell :=
  if Qeq_bool (frac v) 0
  then [ plot steep major (Qfloor v) opaque ]
  else [ plot steep major (Qfloor v) (1 - frac v)%Q;
         plot steep major (Qfloor v + 1) (frac v) ].

Fixpoint wu_loop (steep : bool) (n : nat) (major s_major : Z) (v grad : Q)
    : list Cell :=
  match n with
  | O => []
  | S n' =>
      wu_pair steep major v ++
      wu_loop steep n' (major + s_major) s_major (v + grad)%Q grad
  end.

(** Modelled from the spec: the class [Wu] of [scripts/line_algorithms.py],
    which is missing from the sources.  Section 4.1: for a slope of at most
    one in absolute value, x goes from the start to the end one unit at a
    time while a real-valued y accumulates the slope, and each sample emits
    the cells of [wu_pair]; for a steeper line x and y swap roles; the two
    endpoints are emitted with full opacity; equal endpoints give one opaque
    cell. *)
Definition Wu (x0 y0 x1 y1 : Z) : list Cell :=
  let dx := x1 - x0 in
  let dy := y1 - y0 in
  if (dx =? 0) && (dy =? 0) then [(x0, y0, opaque)]
  else if Z.abs dy <=? Z.abs dx
  then
    let grad := (inject_Z dy / inject_Z (Z.abs dx))%Q in
    (x0, y0, opaque) ::
    wu_loop false (Z.to_nat (Z.abs dx) - 1) (x0 + Z.sgn dx) (Z.sgn dx)
            (inject_Z y0 + grad)%Q grad
    ++ [(x1, y1, opaque)]
  else
    let grad := (inject_Z dx / inject_Z (Z.abs dy))%Q in
    (x0, y0, opaque) ::
    wu_loop true (Z.to_nat (Z.abs dy) - 1) (y0 + Z.sgn dy) (Z.sgn dy)
            (inject_Z x0 + grad)%Q grad
    ++ [(x1, y1, opaque)].

(** The algorithm selection and the rasterizer's public contract. *)
Inductive Algorithm : Type := AlgDDA | AlgBresenham | AlgWu.

Definition rasterize (a : Algorithm) (x0 y0 x1 y1 : Z) : list Cell :=
  match a with
  | AlgDDA => DDA x0 y0 x1 y1
  | AlgBresenham => Bresenham x0 y0 x1 y1
  | AlgWu => Wu x0 y0 x1 y1
  end.

(** ** Vocabulary of the statements *)

(** The number of steps of a segment and its two deltas in absolute order. *)
Definition d_major (x0 y0 x1 y1 : Z) : Z := Z.max (Z.abs (x1 - x0)) (Z.abs (y1 - y0)).
Definition d_minor (x0 y0 x1 y1 : Z) : Z := Z.min (Z.abs (x1 - x0)) (Z.abs (y1 - y0)).
Definition steps (x0 y0 x1 y1 : Z) : nat := Z.to_nat (d_major x0 y0 x1 y1).

(** The cell [i] units along the dominant axis and [k] units along the
    other one, counted from the start towards the end. *)
Definition cell_at (x0 y0 x1 y1 i k : Z) : Cell :=
  if Z.abs (y1 - y0) <=? Z.abs (x1 - x0)
  then (x0 + Z.sgn (x1 - x0) * i, y0 + Z.sgn (y1 - y0) * k, opaque)
  else (x0 + Z.sgn (x1 - x0) * k, y0 + Z.sgn (y1 - y0) * i, opaque).

(** A cell is within half a unit of the ideal line, along the minor axis,
    when its offset [d = 2 d_minor i - 2 d_major k], the distance scaled by
    [2 d_major], is between [- d_major] and [d_major].  Of the two ends one
    is excluded, depending on the way a zero decision error is resolved. *)
Definition within_half (strict : bool) (d_major d : Z) : Prop :=
  - d_major <= d <= d_major
  /\ (0 < d_major -> if strict then - d_major < d else d < d_major).

(** The value an accumulator holds after [i] additions of [inc]. *)
Fixpoint accumulate (i : nat) (v inc : Q) : Q :=
  match i with
  | O => v
  | S i' => accumulate i' (v + inc)%Q inc
  end.

(** The ideal line at sample [i]: its coordinate on the minor axis. *)
Definition ideal (x0 y0 x1 y1 : Z) (i : Z) : Q :=
  if Z.abs (y1 - y0) <=? Z.abs (x1 - x0)
  then (inject_Z y0 + inject_Z i * (inject_Z (y1 - y0) / inject_Z (Z.abs (x1 - x0))))%Q
  else (inject_Z x0 + inject_Z i * (inject_Z (x1 - x0) / inject_Z (Z.abs (y1 - y0))))%Q.

(** The cell of sample [i] at [minor] on the other axis, with weight [w]. *)
Definition cell_of_sample (x0 y0 x1 y1 i minor : Z) (w : Q) : Cell :=
  if Z.abs (y1 - y0) <=? Z.abs (x1 - x0)
  then (x0 + Z.sgn (x1 - x0) * i, minor, w)
  else (minor, y0 + Z.sgn (y1 - y0) * i, w).

(** The weights of the cells of one sample, added up. *)
Definition total_opacity (cells : list Cell) : Q :=
  fold_right (fun c acc => (opacity c + acc)%Q) 0%Q cells.

(** What Wu's algorithm emits at sample [i]: with [v] the ideal line there
    and [f] its fractional part, the cell at [floor v] alone and opaque when
    [f] is zero, otherwise the cell at [floor v] with weight [1 - f] and the
    next one with weight [f]. *)
Definition sample_cells (x0 y0 x1 y1 : Z) (i : nat) (cells : list Cell) : Prop :=
  exists v : Q,
    (v == ideal x0 y0 x1 y1 (Z.of_nat i))%Q
    /\ let f := (v - inject_Z (Qfloor v))%Q in
       ((f == 0)%Q
        /\ cells = [cell_of_sample x0 y0 x1 y1 (Z.of_nat i) (Qfloor v) opaque])
       \/ ((0 < f)%Q /\ (f < 1)%Q
           /\ cells = [cell_of_sample x0 y0 x1 y1 (Z.of_nat i) (Qfloor v) (1 - f)%Q;
                       cell_of_sample x0 y0 x1 y1 (Z.of_nat i) (Qfloor v + 1) f]).

End Rasterizer.

(* ================================================================== *)
(** * Part II: [DrawingApp] of [src/lab1/main.py]                       *)
(* ================================================================== *)

Module App.

(** ** Data *)

(** What the menu can put in an algorithm slot: the three classes imported
    from [scripts.line_algorithms].  A class object is truthy and is not
    [None]. *)
Inductive AlgorithmClass : Type := DDA | Bresenham | Wu.

(** One element of [get_points()]: [(x, y, color)], the colour being a Tk
    colour string. *)
Definition Point : Type := (Z * Z * string)%type.

(** The pointer event of a click: [event.x] and [event.y], in pixels. *)
Record Event : Type := { event_x : Z; event_y : Z }.

(** Canvas items, as created by [create_oval], [create_rectangle] and
    [create_line]. *)
Inductive Item : Type :=
| oval (x0 y0 x1 y1 : Z) (fill : string)
| rectangle (x0 y0 x1 y1 : Z) (outline fill : string)
| line (x0 y0 x1 y1 : Z) (fill tags : string).

Definition has_tag (tag : string) (i : Item) : bool :=
  match i with
  | line _ _ _ _ _ tags => String.eqb tags tag
  | _ => false
  end.

(** The exceptions the handlers can raise. *)
Inductive PyExc : Type := TypeError | ZeroDivisionError | ValueError | IndexError.

(** The attributes of a [DrawingApp], and around them what its methods act
    on: the window title, the canvas items in creation order, the size Tk
    reports for the canvas, the message boxes shown, the lines printed, and
    the callbacks registered with [after] and not yet run (delay in ms, and
    the [points] and [index] the lambda closes over). *)
Record DrawingApp : Type := {
  title : string;
  _canvas : list Item;
  winfo_width : Z;
  winfo_height : Z;
  _grid_size : Z;
  _start_x : option Z;
  _start_y : option Z;
  _current_line_algorithm : option AlgorithmClass;
  _current_curve_algorithm : option AlgorithmClass;
  _current_parametric_algorithm : option AlgorithmClass;
  _debug_mode : bool;
  messagebox : list (string * string * string);
  stdout : list string;
  after_queue : list (Z * (list Point * nat))
}.

Definition set_title (v : string) (a : DrawingApp) : DrawingApp :=
  {| title := v; _canvas := _canvas a; winfo_width := winfo_width a;
     winfo_height := winfo_height a; _grid_size := _grid_size a;
     _start_x := _start_x a; _start_y := _start_y a;
     _current_line_algorithm := _current_line_algorithm a;
     _current_curve_algorithm := _current_curve_algorithm a;
     _current_parametric_algorithm := _current_parametric_algorithm a;
     _debug_mode := _debug_mode a; messagebox := messagebox a;
     stdout := stdout a; after_queue := after_queue a |}.

Definition set_canvas (v : list Item) (a : DrawingApp) : DrawingApp :=
  {| title := title a; _canvas := v; winfo_width := winfo_width a;
     winfo_height := winfo_height a; _grid_size := _grid_size a;
     _start_x := _start_x a; _start_y := _start_y a;
     _current_line_algorithm := _current_line_algorithm a;
     _current_curve_algorithm := _current_curve_algorithm a;
     _current_parametric_algorithm := _current_parametric_algorithm a;
     _debug_mode := _debug_mode a; messagebox := messagebox a;
     stdout := stdout a; after_queue := after_queue a |}.

Definition set_winfo (w h : Z) (a : DrawingApp) : DrawingApp :=
  {| title := title a; _canvas := _canvas a; winfo_width := w;
     winfo_height := h; _grid_size := _grid_size a;
     _start_x := _start_x a; _start_y := _start_y a;
     _current_line_algorithm := _current_line_algorithm a;
     _current_curve_algorithm := _current_curve_algorithm a;
     _current_parametric_algorithm := _current_parametric_algorithm a;
     _debug_mode := _debug_mode a; messagebox := messagebox a;
     stdout := stdout a; after_queue := after_queue a |}.

Definition set_start_x (v : option Z) (a : DrawingApp) : DrawingApp :=
  {| title := title a; _canvas := _canvas a; winfo_width := winfo_width a;
     winfo_height := winfo_height a; _grid_size := _grid_size a;
     _start_x := v; _start_y := _start_y a;
     _current_line_algorithm := _current_line_algorithm a;
     _current_curve_algorithm := _current_curve_algorithm a;
     _current_parametric_algorithm := _current_parametric_algorithm a;
     _debug_mode := _debug_mode a; messagebox := messagebox a;
     stdout := stdout a; after_queue := after_queue a |}.

Definition set_start_y (v : option Z) (a : DrawingApp) : DrawingApp :=
  {| title := title a; _canvas := _canvas a; winfo_width := winfo_width a;
     winfo_height := winfo_height a; _grid_size := _grid_size a;
     _start_x := _start_x a; _start_y := v;
     _current_line_algorithm := _current_line_algorithm a;
     _current_curve_algorithm := _current_curve_algorithm a;
     _current_parametric_algorithm := _current_parametric_algorithm a;
     _debug_mode := _debug_mode a; messagebox := messagebox a;
     stdout := stdout a; after_queue := after_queue a |}.

Definition set_current_line_algorithm (v : option AlgorithmClass)
    (a : DrawingApp) : DrawingApp :=
  {| title := title a; _canvas := _canvas a; winfo_width := winfo_width a;
     winfo_height := winfo_height a; _grid_size := _grid_size a;
     _start_x := _start_x a; _start_y := _start_y a;
     _current_line_algorithm := v;
     _current_curve_algorithm := _current_curve_algorithm a;
     _current_parametric_algorithm := _current_parametric_algorithm a;
     _debug_mode := _debug_mode a; messagebox := messagebox a;
     stdout := stdout a; after_queue := after_queue a |}.

Definition set_debug_mode (v : bool) (a : DrawingApp) : DrawingApp :=
  {| title := title a; _canvas := _canvas a; winfo_width := winfo_width a;
     winfo_height := winfo_height a; _grid_size := _grid_size a;
     _start_x := _start_x a; _start_y := _start_y a;
     _current_line_algorithm := _current_line_algorithm a;
     _current_curve_algorithm := _current_curve_algorithm a;
     _current_parametric_algorithm := _current_parametric_algorithm a;
     _debug_mode := v; messagebox := messagebox a;
     stdout := stdout a; after_queue := after_queue a |}.

Definition set_messagebox (v : list (string * string * string))
    (a : DrawingApp) : DrawingApp :=
  {| title := title a; _canvas := _canvas a; winfo_width := winfo_width a;
     winfo_height := winfo_height a; _grid_size := _grid_size a;
     _start_x := _start_x a; _start_y := _start_y a;
     _current_line_algorithm := _current_line_algorithm a;
     _current_curve_algorithm := _current_curve_algorithm a;
     _current_parametric_algorithm := _current_parametric_algorithm a;
     _debug_mode := _debug_mode a; messagebox := v;
     stdout := stdout a; after_queue := after_queue a |}.

Definition set_stdout (v : list string) (a : DrawingApp) : DrawingApp :=
  {| title := title a; _canvas := _canvas a; winfo_width := winfo_width a;
     winfo_height := winfo_height a; _grid_size := _grid_size a;
     _start_x := _start_x a; _start_y := _start_y a;
     _current_line_algorithm := _current_line_algorithm a;
     _current_curve_algorithm := _current_curve_algorithm a;
     _current_parametric_algorithm := _current_parametric_algorithm a;
     _debug_mode := _debug_mode a; messagebox := messagebox a;
     stdout := v; after_queue := after_queue a |}.

Definition set_after_queue (v : list (Z * (list Point * nat)))
    (a : DrawingApp) : DrawingApp :=
  {| title := title a; _canvas := _canvas a; winfo_width := winfo_width a;
     winfo_height := winfo_height a; _grid_size := _grid_size a;
     _start_x := _start_x a; _start_y := _start_y a;
     _current_line_algorithm := _current_line_algorithm a;
     _current_curve_algorithm := _current_curve_algorithm a;
     _current_parametric_algorithm := _current_parametric_algorithm a;
     _debug_mode := _debug_mode a; messagebox := messagebox a;
     stdout := stdout a; after_queue := v |}.

(** ** The monad of the methods: state and exceptions *)

(** A method either returns with the object in a new state, or an exception
    leaves it with the object as it was when raised. *)
Inductive Outcome (A : Type) : Type :=
| Ok (a : A) (self : DrawingApp)
| Raise (e : PyExc) (self : DrawingApp).
Arguments Ok {A} a self.
Arguments Raise {A} e self.

Definition M (A : Type) : Type := DrawingApp -> Outcome A.

Definition ret {A} (a : A) : M A := fun self => Ok a self.
Definition bind {A B} (m : M A) (k : A -> M B) : M B :=
  fun self =>
    match m self with
    | Ok a self' => k a self'
    | Raise e self' => Raise e self'
    end.
Definition raise {A} (e : PyExc) : M A := fun self => Raise e self.
Definition get : M DrawingApp := fun self => Ok self self.
Definition modify (f : DrawingApp -> DrawingApp) : M unit :=
  fun self => Ok tt (f self).

Notation "x <- m ;; k" := (bind m (fun x => k))
  (at level 61, m at next level, right associativity).
Notation "m ;; k" := (bind m (fun _ => k))
  (at level 61, right associativity).

(** The object a method leaves behind, however it ends. *)
Definition state_of {A} (o : Outcome A) : DrawingApp :=
  match o with
  | Ok _ self => self
  | Raise _ self => self
  end.

Fixpoint for_each {A} (l : list A) (body : A -> M unit) : M unit :=
  match l with
  | [] => ret tt
  | a :: l' => body a ;; for_each l' body
  end.

(** ** Python and Tk primitives *)

(** Truthiness of a slot: [None] is falsy, a class is truthy. *)
Definition truthy (v : option AlgorithmClass) : bool :=
  match v with
  | None => false
  | Some _ => true
  end.

(** The builtin [any]. *)
Definition any (vs : list (option AlgorithmClass)) : bool := existsb truthy vs.

(** [a // b] on integers: the floor of the quotient, [ZeroDivisionError] for a
    zero divisor. *)
Definition floordiv (a b : Z) : M Z :=
  if b =? 0 then raise ZeroDivisionError else ret (a / b).

(** [range(start, stop, step)], [ValueError] for a zero step. *)
Definition range_list (start stop step : Z) : list Z :=
  let n := if 0 <? step then (stop - start + step - 1) / step
           else (start - stop - step - 1) / (- step) in
  map (fun i => start + Z.of_nat i * step) (seq 0 (Z.to_nat n)).

Definition range (start stop step : Z) : M (list Z) :=
  if step =? 0 then raise ValueError else ret (range_list start stop step).

Definition spaces (n : nat) : string :=
  string_of_list_ascii (repeat " "%char n).

(** [format(n, "5")] for an integer: decimal, right-aligned in five columns. *)
Definition format_5 (n : Z) : string :=
  let s := NilZero.string_of_int (Z.to_int n) in
  (spaces (5 - String.length s) ++ s)%string.

Definition print (s : string) : M unit :=
  self <- get ;; modify (set_stdout (stdout self ++ [s])).

Definition showwarning (ttl msg : string) : M unit :=
  self <- get ;;
  modify (set_messagebox (messagebox self ++ [("warning", ttl, msg)%string])).

Definition create (i : Item) : M unit :=
  self <- get ;; modify (set_canvas (_canvas self ++ [i])).

Definition create_oval (x0 y0 x1 y1 : Z) (fill : string) : M unit :=
  create (oval x0 y0 x1 y1 fill).
Definition create_rectangle (x0 y0 x1 y1 : Z) (outline fill : string) : M unit :=
  create (rectangle x0 y0 x1 y1 outline fill).
Definition create_line (x0 y0 x1 y1 : Z) (fill tags : string) : M unit :=
  create (line x0 y0 x1 y1 fill tags).

(** [canvas.delete(tag)]: ["all"] removes every item. *)
Definition delete (tag : string) : M unit :=
  self <- get ;;
  if String.eqb tag "all" then modify (set_canvas [])
  else modify (set_canvas (filter (fun i => negb (has_tag tag i)) (_canvas self))).

(** [self.after(ms, callback)]. *)
Definition after (ms : Z) (points : list Point) (index : nat) : M unit :=
  self <- get ;;
  modify (set_after_queue (after_queue self ++ [(ms, (points, index))])).

(** ** The methods *)

Section Methods.

(** [cls(start_x, start_y, end_x, end_y).get_points()] for a class of
    [scripts.line_algorithms], which is not among the sources: the points it
    returns are left open.  [start_x] is an integer when the call is reached;
    [start_y] is passed as the attribute holds it. *)
Variable get_points : AlgorithmClass -> Z -> option Z -> Z -> Z -> list Point.

Definition _toggle_debug_mode : M unit :=
  self <- get ;; modify (set_debug_mode (negb (_debug_mode self))).

Definition _draw_grid : M unit :=
  delete "grid" ;;
  self <- get ;;
  let width := winfo_width self in
  let height := winfo_height self in
  xs <- range 0 width (_grid_size self) ;;
  for_each xs (fun x => create_line x 0 x height "lightgray" "grid") ;;
  ys <- range 0 height (_grid_size self) ;;
  for_each ys (fun y => create_line 0 y width y "lightgray" "grid").

Definition _clear_canvas : M unit :=
  delete "all" ;; _draw_grid.

(** One call of [_draw_points_with_latency]: it paints the cell at [index],
    prints it, and registers the call for [index + 1] with [after]. *)
Definition _draw_points_with_latency (points : list Point) (index : nat)
    : M unit :=
  if (List.length points <=? index)%nat then ret tt
  else
    match nth_error points index with
    | None => raise IndexError
    | Some (x, y, color) =>
        self <- get ;;
        create_rectangle
          (x * _grid_size self)
          (y * _grid_size self)
          ((x + 1) * _grid_size self)
          ((y + 1) * _grid_size self)
          "black" color ;;
        print ("Point: " ++ format_5 x ++ " " ++ format_5 y)%string ;;
        after 50 points (index + 1)
    end.

Definition _draw_points (points : list Point) : M unit :=
  for_each points (fun point =>
    let '(x, y, color) := point in
    self <- get ;;
    create_rectangle
      (x * _grid_size self)
      (y * _grid_size self)
      ((x + 1) * _grid_size self)
      ((y + 1) * _grid_size self)
      "black" color).

(** The chain [if ... is not None: ... elif ... else: raise] of
    [_on_canvas_click]: the class that is called, if any. *)
Definition select_algorithm (self : DrawingApp) : option AlgorithmClass :=
  match _current_line_algorithm self with
  | Some cls => Some cls
  | None =>
      match _current_curve_algorithm self with
      | Some cls => Some cls
      | None =>
          match _current_parametric_algorithm self with
          | Some cls => Some cls
          | None => None
          end
      end
  end.

(** The guard of [_on_canvas_click]: [any((...)) is False]. *)
Definition no_algorithm_selected (self : DrawingApp) : bool :=
  Bool.eqb
    (any [ _current_line_algorithm self;
           _current_curve_algorithm self;
           _current_parametric_algorithm self ])
    false.

Definition _on_canvas_click (event : Event) : M unit :=
  self <- get ;;
  if no_algorithm_selected self
  then showwarning "Warning" "No algorithm selected."
  else
    match _start_x self with
    | None =>
        sx <- floordiv (event_x event) (_grid_size self) ;;
        modify (set_start_x (Some sx)) ;;
        sy <- floordiv (event_y event) (_grid_size self) ;;
        modify (set_start_y (Some sy)) ;;
        create_oval (event_x event - 3) (event_y event - 3)
                    (event_x event + 3) (event_y event + 3) "red"
    | Some start_x =>
        end_x <- floordiv (event_x event) (_grid_size self) ;;
        end_y <- floordiv (event_y event) (_grid_size self) ;;
        create_oval (event_x event - 3) (event_y event - 3)
                    (event_x event + 3) (event_y event + 3) "red" ;;
        points_to_draw <-
          match select_algorithm self with
          | Some cls => ret (get_points cls start_x (_start_y self) end_x end_y)
          | None => raise TypeError
          end ;;
        (if _debug_mode self
         then _draw_points_with_latency points_to_draw 0
         else _draw_points points_to_draw) ;;
        modify (set_start_x None) ;;
        modify (set_start_y None)
    end.

Definition _uncheck_all_algorithms : M unit :=
  modify (set_current_line_algorithm None).

Definition _set_line_algorithm (algorithm : string) : M unit :=
  _uncheck_all_algorithms ;;
  if String.eqb algorithm "DDA" then
    modify (set_current_line_algorithm (Some DDA)) ;;
    modify (set_title "DDA")
  else if String.eqb algorithm "Bresenham" then
    modify (set_current_line_algorithm (Some Bresenham)) ;;
    modify (set_title "Bresenham")
  else if String.eqb algorithm "Wu" then
    modify (set_current_line_algorithm (Some Wu)) ;;
    modify (set_title "Wu")
  else ret tt.

(** [DrawingApp()]: [w] and [h] are the size Tk reports for the canvas while
    the constructor runs.  The attributes assigned after the first
    [_draw_grid] are not read by it and are given their values at once. *)
Definition __init__ (w h : Z) : Outcome unit :=
  _draw_grid
    {| title := "Drawing App"; _canvas := [];
       winfo_width := w; winfo_height := h;
       _grid_size := 5;
       _start_x := None; _start_y := None;
       _current_line_algorithm := None;
       _current_curve_algorithm := None;
       _current_parametric_algorithm := None;
       _debug_mode := false;
       messagebox := []; stdout := []; after_queue := [] |}.

(** ** The main loop *)

(** What [mainloop] can deliver: a click on the canvas, a resize of the
    canvas, one of the three commands of the Line menu, the Debug
    checkbutton, and the oldest callback registered with [after] coming
    due. *)
Inductive TkEvent : Type :=
| Button1 (event : Event)
| Configure (w h : Z)
| LineMenu (cls : AlgorithmClass)
| DebugMenu
| AfterDue.

Definition label (cls : AlgorithmClass) : string :=
  match cls with
  | DDA => "DDA"
  | Bresenham => "Bresenham"
  | Wu => "Wu"
  end.

(** The oldest pending callback runs; all delays are equal, so the callbacks
    come due in the order they were registered. *)
Definition run_after : M unit :=
  self <- get ;;
  match after_queue self with
  | [] => ret tt
  | (_, (points, index)) :: rest =>
      modify (set_after_queue rest) ;;
      _draw_points_with_latency points index
  end.

Definition handle (ev : TkEvent) : M unit :=
  match ev with
  | Button1 event => _on_canvas_click event
  | Configure w h => modify (set_winfo w h) ;; _draw_grid
  | LineMenu cls => _set_line_algorithm (label cls)
  | DebugMenu => _toggle_debug_mode
  | AfterDue => run_after
  end.

(** The states of a running application.  An exception in a handler is
    reported by Tk and the loop goes on. *)
Inductive reachable : DrawingApp -> Prop :=
| reachable_init (w h : Z) : reachable (state_of (__init__ w h))
| reachable_step (ev : TkEvent) (self : DrawingApp) :
    reachable self -> reachable (state_of (handle ev self)).

(** The pending callbacks run one after the other until none is left;
    [fuel] bounds their number. *)
Fixpoint run_pending (fuel : nat) : M unit :=
  match fuel with
  | O => ret tt
  | S fuel' =>
      self <- get ;;
      match after_queue self with
      | [] => ret tt
      | _ :: _ => run_after ;; run_pending fuel'
      end
  end.

(** ** Vocabulary of the statements *)

(** The rectangle both drawing methods create for a point. *)
Definition cell_rectangle (grid_size : Z) (p : Point) : Item :=
  let '(x, y, color) := p in
  rectangle (x * grid_size) (y * grid_size)
            ((x + 1) * grid_size) ((y + 1) * grid_size) "black" color.

(** The line [_draw_points_with_latency] prints for a point. *)
Definition point_line (p : Point) : string :=
  let '(x, y, _) := p in
  ("Point: " ++ format_5 x ++ " " ++ format_5 y)%string.

(** The canvas after [_draw_grid]: the items that are not grid lines, then
    the vertical and the horizontal lines. *)
Definition grid_canvas (self : DrawingApp) : list Item :=
  filter (fun i => negb (has_tag "grid" i)) (_canvas self)
  ++ map (fun x => line x 0 x (winfo_height self) "lightgray" "grid")
         (range_list 0 (winfo_width self) (_grid_size self))
  ++ map (fun y => line 0 y (winfo_width self) y "lightgray" "grid")
         (range_list 0 (winfo_height self) (_grid_size self)).

(** What every state of a running application satisfies: the grid size is
    the one set by the constructor, the two start coordinates are set and
    reset together, and nothing is ever stored in the curve and parametric
    slots. *)
Definition invariant (self : DrawingApp) : Prop :=
  _grid_size self = 5
  /\ (_start_x self = None <-> _start_y self = None)
  /\ _current_curve_algorithm self = None
  /\ _current_parametric_algorithm self = None.

(** A stand-in for [get_points], to run the handlers on concrete inputs:
    the two endpoints in black. *)
Definition endpoints_only (cls : AlgorithmClass) (x0 : Z) (y0 : option Z)
    (x1 y1 : Z) : list Point :=
  match y0 with
  | Some y0 => [(x0, y0, "black"%string); (x1, y1, "black"%string)]
  | None => []
  end.

(** The red mark of a click. *)
Definition click_mark (event : Event) : Item :=
  oval (event_x event - 3) (event_y event - 3)
       (event_x event + 3) (event_y event + 3) "red".

(** [mainloop] on a given sequence of events: each event runs its handler
    on the state the previous one left. *)
Definition mainloop (evs : list TkEvent) (self : DrawingApp) : DrawingApp :=
  fold_left (fun s ev => state_of (handle ev s)) evs self.

(** [main()]: the application is constructed and the loop runs. *)
Definition main (w h : Z) (evs : list TkEvent) : DrawingApp :=
  mainloop evs (state_of (__init__ w h)).

(** The drawing: the items of the canvas that are not grid lines. *)
Definition drawing (self : DrawingApp) : list Item :=
  filter (fun i => negb (has_tag "grid" i)) (_canvas self).

(** A pending callback as [_draw_points_with_latency] registers it: due in
    50 ms, for an index from 1 to the length of its list. *)
Definition callback_ok (cb : Z * (list Point * nat)) : Prop :=
  let '(ms, (points, index)) := cb in
  ms = 50 /\ (1 <= index <= List.length points)%nat.

(** The cells the pending callbacks have yet to paint, and the calls it
    takes: one per cell and a last one per callback, which finds the index
    past the list. *)
Definition pending_cells (self : DrawingApp) : nat :=
  list_sum (map (fun cb : Z * (list Point * nat) =>
                   (List.length (fst (snd cb)) - snd (snd cb))%nat)
                (after_queue self)).

Definition pending_calls (self : DrawingApp) : nat :=
  list_sum (map (fun cb : Z * (list Point * nat) =>
                   S (List.length (fst (snd cb)) - snd (snd cb)))
                (after_queue self)).

(** The clicks among a sequence of events. *)
Definition is_click (ev : TkEvent) : bool :=
  match ev with
  | Button1 _ => true
  | _ => false
  end.

Definition clicks (evs : list TkEvent) : nat :=
  List.length (filter is_click evs).

End Methods.

End App.

(* ================================================================== *)
(** * Part III: properties of the rasterizers                          *)
(* ================================================================== *)

Module RasterizerProofs.

Import Rasterizer.

(** ** The scenarios of the specification *)

Example Bresenham_diagonal :
  Bresenham 0 0 3 3
  = [(0, 0, opaque); (1, 1, opaque); (2, 2, opaque); (3, 3, opaque)].
Proof. reflexivity. Qed.

Example Bresenham_horizontal :
  Bresenham 0 0 3 0
  = [(0, 0, opaque); (1, 0, opaque); (2, 0, opaque); (3, 0, opaque)].
Proof. reflexivity. Qed.

Example Bresenham_shallow :
  Bresenham 0 0 4 1
  = [(0, 0, opaque); (1, 0, opaque); (2, 1, opaque); (3, 1, opaque);
     (4, 1, opaque)].
Proof. reflexivity. Qed.

Example DDA_horizontal :
  DDA 0 0 3 0
  = [(0, 0, opaque); (1, 0, opaque); (2, 0, opaque); (3, 0, opaque)].
Proof. reflexivity. Qed.

Example Wu_shallow_opacities :
  map (fun c => (cell_x c, cell_y c, Qred (opacity c))) (Wu 0 0 3 1)
  = [(0, 0, 1%Q); (1, 0, 2 # 3); (1, 1, 1 # 3);
     (2, 0, 1 # 3); (2, 1, 2 # 3); (3, 1, 1%Q)].
Proof. reflexivity. Qed.

(** ** Bresenham: the closed form of the loop *)

Lemma bresenham_loop_length strict steep n :
  forall major minor sM sm dM dm err,
    List.length (bresenham_loop strict steep n major minor sM sm dM dm err) = n.
Proof.
  induction n as [|n IH]; intros; simpl; [reflexivity|].
  now rewrite IH.
Qed.

(** The invariant of the loop.  Before the iteration that emits sample [j],
    with the minor axis advanced [k] times so far, the error is
    [2 dm (j + 1) - dM (2 k + 1)] and the cell is within half a unit of the
    ideal line ([within_half]).  Sample [i] of the rest of the loop then
    sits [i] units further on the major axis and again within half a unit
    of the line. *)
Lemma bresenham_loop_nth strict steep n :
  forall major minor sM sm dM dm err j k i,
    0 <= dm <= dM ->
    err = 2 * dm * (j + 1) - dM * (2 * k + 1) ->
    within_half strict dM (2 * dm * j - 2 * dM * k) ->
    (i < n)%nat ->
    exists k',
      nth_error (bresenham_loop strict steep n major minor sM sm dM dm err) i
      = Some (plot steep (major + sM * Z.of_nat i) (minor + sm * (k' - k)) opaque)
      /\ k <= k' <= k + Z.of_nat i
      /\ within_half strict dM (2 * dm * (j + Z.of_nat i) - 2 * dM * k').
Proof.
  unfold within_half.
  induction n as [|n IH]; intros major minor sM sm dM dm err j k i Hd He Hinv Hi;
    [lia|].
  destruct i as [|i].
  - exists k. cbn [bresenham_loop nth_error]. split.
    + do 2 f_equal; lia.
    + split; [lia|]. now replace (j + Z.of_nat 0) with j by lia.
  - cbn [bresenham_loop nth_error].
    set (advance := if strict then 0 <? err else 0 <=? err).
    assert (Hadv : advance = true -> if strict then 0 < err else 0 <= err) by
      (unfold advance; destruct strict; lia).
    assert (Hstay : advance = false -> if strict then err <= 0 else err < 0) by
      (unfold advance; destruct strict; lia).
    destruct advance.
    + specialize (Hadv eq_refl).
      destruct (IH (major + sM) (minor + sm) sM sm dM dm
                   (err - 2 * dM + 2 * dm) (j + 1) (k + 1) i)
        as (k' & Hn & Hb & Hk'); try lia.
      { destruct strict; lia. }
      exists k'. rewrite Hn. split; [do 2 f_equal; lia|].
      split; [lia|].
      now replace (j + Z.of_nat (S i)) with (j + 1 + Z.of_nat i) by lia.
    + specialize (Hstay eq_refl).
      destruct (IH (major + sM) minor sM sm dM dm
                   (err + 2 * dm) (j + 1) k i)
        as (k' & Hn & Hb & Hk'); try lia.
      { destruct strict; lia. }
      exists k'. rewrite Hn. split; [do 2 f_equal; lia|].
      split; [lia|].
      now replace (j + Z.of_nat (S i)) with (j + 1 + Z.of_nat i) by lia.
Qed.

Lemma opacity_plot steep a b w : opacity (plot steep a b w) = w.
Proof. now destruct steep. Qed.

Lemma bresenham_loop_opaque strict steep n :
  forall major minor sM sm dM dm err,
    Forall (fun c => opacity c = opaque)
           (bresenham_loop strict steep n major minor sM sm dM dm err).
Proof.
  induction n as [|n IH]; intros; cbn [bresenham_loop]; constructor.
  - apply opacity_plot.
  - apply IH.
Qed.

Lemma Bresenham_with_length strict x0 y0 x1 y1 :
  List.length (Bresenham_with strict x0 y0 x1 y1) = S (steps x0 y0 x1 y1).
Proof.
  unfold Bresenham_with, steps, d_major.
  destruct (Z.leb_spec (Z.abs (y1 - y0)) (Z.abs (x1 - x0)));
    rewrite bresenham_loop_length; f_equal; f_equal; lia.
Qed.

(** Every cell of Bresenham's line is within half a unit of the ideal line,
    measured along the minor axis. *)
Lemma Bresenham_with_nth strict x0 y0 x1 y1 i :
  (i <= steps x0 y0 x1 y1)%nat ->
  exists k,
    nth_error (Bresenham_with strict x0 y0 x1 y1) i
    = Some (cell_at x0 y0 x1 y1 (Z.of_nat i) k)
    /\ 0 <= k <= Z.of_nat i
    /\ within_half strict (d_major x0 y0 x1 y1)
         (2 * d_minor x0 y0 x1 y1 * Z.of_nat i - 2 * d_major x0 y0 x1 y1 * k).
Proof.
  assert (Hstart : forall dM dm,
            0 <= dM -> within_half strict dM (2 * dm * 0 - 2 * dM * 0)).
  { intros dM dm HdM. unfold within_half. destruct strict; lia. }
  unfold Bresenham_with, steps, d_major, d_minor, cell_at. intros Hi.
  destruct (Z.leb_spec (Z.abs (y1 - y0)) (Z.abs (x1 - x0))) as [Hle|Hlt].
  - rewrite Z.max_l, Z.min_r in * by lia.
    destruct (bresenham_loop_nth strict false (S (Z.to_nat (Z.abs (x1 - x0))))
                x0 y0 (Z.sgn (x1 - x0)) (Z.sgn (y1 - y0))
                (Z.abs (x1 - x0)) (Z.abs (y1 - y0))
                (2 * Z.abs (y1 - y0) - Z.abs (x1 - x0)) 0 0 i)
      as (k & Hn & Hb & Hk); try lia.
    { apply Hstart. lia. }
    exists k. rewrite Hn. split; [unfold plot; do 3 f_equal; lia|].
    split; [lia|]. exact Hk.
  - rewrite Z.max_r, Z.min_l in * by lia.
    destruct (bresenham_loop_nth strict true (S (Z.to_nat (Z.abs (y1 - y0))))
                y0 x0 (Z.sgn (y1 - y0)) (Z.sgn (x1 - x0))
                (Z.abs (y1 - y0)) (Z.abs (x1 - x0))
                (2 * Z.abs (x1 - x0) - Z.abs (y1 - y0)) 0 0 i)
      as (k & Hn & Hb & Hk); try lia.
    { apply Hstart. lia. }
    exists k. rewrite Hn. split; [unfold plot; do 3 f_equal; lia|].
    split; [lia|]. exact Hk.
Qed.

Lemma cell_at_start x0 y0 x1 y1 : cell_at x0 y0 x1 y1 0 0 = (x0, y0, opaque).
Proof.
  unfold cell_at. destruct (_ <=? _); do 2 f_equal; lia.
Qed.

Lemma cell_at_end x0 y0 x1 y1 :
  cell_at x0 y0 x1 y1 (d_major x0 y0 x1 y1) (d_minor x0 y0 x1 y1)
  = (x1, y1, opaque).
Proof.
  unfold cell_at, d_major, d_minor.
  pose proof (Z.sgn_abs (x1 - x0)). pose proof (Z.sgn_abs (y1 - y0)).
  destruct (Z.leb_spec (Z.abs (y1 - y0)) (Z.abs (x1 - x0))).
  - rewrite Z.max_l, Z.min_r by lia. do 2 f_equal; lia.
  - rewrite Z.max_r, Z.min_l by lia. do 2 f_equal; lia.
Qed.

Lemma last_nth_error {A} (l : list A) (a d : A) :
  nth_error l (List.length l - 1) = Some a -> last l d = a.
Proof.
  induction l as [|b l IH]; [discriminate|].
  destruct l as [|c l].
  - cbn. congruence.
  - intros H. change (last (b :: c :: l) d) with (last (c :: l) d).
    apply IH. cbn [List.length] in *.
    replace (S (S (List.length l)) - 1)%nat with (S (List.length l)) in H by lia.
    replace (S (List.length l) - 1)%nat with (List.length l) by lia.
    exact H.
Qed.

(** C1.  Whatever the two grid points, Bresenham's rasterizer returns exactly
    [max(|dx|, |dy|) + 1] cells, every one of them fully opaque; the first is
    the start and the last is the end.  This holds whichever way a decision
    error of zero is resolved; [Bresenham] is [Bresenham_with] at the reading
    of [zero_error_strict]. *)
Theorem Bresenham_count_and_endpoints :
  forall (strict : bool) (x0 y0 x1 y1 : Z),
    let cells := Bresenham_with strict x0 y0 x1 y1 in
    Z.of_nat (List.length cells) = Z.max (Z.abs (x1 - x0)) (Z.abs (y1 - y0)) + 1
    /\ Forall (fun c => opacity c = opaque) cells
    /\ hd_error cells = Some (x0, y0, opaque)
    /\ last cells (x0, y0, opaque) = (x1, y1, opaque).
Proof.
  intros strict x0 y0 x1 y1 cells.
  pose proof (Bresenham_with_length strict x0 y0 x1 y1) as Hlen.
  fold cells in Hlen.
  assert (Hmax : 0 <= d_major x0 y0 x1 y1) by (unfold d_major; lia).
  assert (Hmin : 0 <= d_minor x0 y0 x1 y1 <= d_major x0 y0 x1 y1)
    by (unfold d_major, d_minor; lia).
  repeat split.
  - rewrite Hlen. unfold steps, d_major in *. lia.
  - unfold cells, Bresenham_with.
    destruct (_ <=? _); apply bresenham_loop_opaque.
  - destruct (Bresenham_with_nth strict x0 y0 x1 y1 0) as (k & Hn & Hb & Hk & _); [lia|].
    fold cells in Hn.
    assert (k = 0) by lia. subst k.
    rewrite cell_at_start in Hn.
    destruct cells; [discriminate|]. exact Hn.
  - apply last_nth_error. rewrite Hlen.
    replace (S (steps x0 y0 x1 y1) - 1)%nat with (steps x0 y0 x1 y1) by lia.
    destruct (Bresenham_with_nth strict x0 y0 x1 y1 (steps x0 y0 x1 y1))
      as (k & Hn & Hb & Hk & _); [lia|].
    fold cells in Hn. rewrite Hn. f_equal.
    unfold steps in *. rewrite Z2Nat.id in * by lia.
    assert (k = d_minor x0 y0 x1 y1) by nia. subst k.
    apply cell_at_end.
Qed.

(** ** Degenerate segments *)

Lemma Wu_degenerate x y : Wu x y x y = [(x, y, opaque)].
Proof. unfold Wu. now rewrite !Z.sub_diag. Qed.

(** C2.  When the start and the end are the same grid point, each of the
    three algorithms returns one cell: that point, fully opaque. *)
Theorem degenerate_segment_one_cell :
  forall (a : Algorithm) (x y : Z),
    rasterize a x y x y = [(x, y, opaque)].
Proof.
  intros a x y.
  destruct a; cbn [rasterize]; unfold DDA, Bresenham, Bresenham_with, Wu;
    rewrite !Z.sub_diag; reflexivity.
Qed.

(** ** Wu: the blended pairs *)

Lemma accumulate_eq i : forall v inc,
  (accumulate i v inc == v + inject_Z (Z.of_nat i) * inc)%Q.
Proof.
  induction i as [|i IH]; intros v inc.
  - cbn [accumulate]. change (inject_Z (Z.of_nat 0)) with 0%Q. ring.
  - cbn [accumulate]. rewrite IH, Nat2Z.inj_succ.
    unfold Z.succ. rewrite inject_Z_plus. change (inject_Z 1) with 1%Q. ring.
Qed.

Lemma frac_range v : (0 <= frac v)%Q /\ (frac v < 1)%Q.
Proof.
  unfold frac. pose proof (Qfloor_le v) as Hlo. pose proof (Qlt_floor v) as Hhi.
  rewrite inject_Z_plus in Hhi. change (inject_Z 1) with 1%Q in Hhi.
  split; lra.
Qed.

(** Every cell of the loop lies on one of its samples. *)
Lemma wu_loop_In steep n : forall major sM v g c,
  In c (wu_loop steep n major sM v g) ->
  exists (i : nat) (m : Z) (w : Q),
    (i < n)%nat /\ c = plot steep (major + sM * Z.of_nat i) m w.
Proof.
  induction n as [|n IH]; intros major sM v g c Hin; [destruct Hin|].
  cbn [wu_loop] in Hin. apply in_app_or in Hin. destruct Hin as [Hin|Hin].
  - unfold wu_pair in Hin.
    destruct (Qeq_bool (frac v) 0); cbn [In] in Hin.
    + destruct Hin as [<-|[]].
      exists 0%nat, (Qfloor v), opaque. split; [lia|]. f_equal. lia.
    + destruct Hin as [<-|[<-|[]]].
      * exists 0%nat, (Qfloor v), (1 - frac v)%Q. split; [lia|]. f_equal. lia.
      * exists 0%nat, (Qfloor v + 1), (frac v). split; [lia|]. f_equal. lia.
  - destruct (IH _ _ _ _ _ Hin) as (i & m & w & Hi & ->).
    exists (S i), m, w. split; [lia|]. f_equal. lia.
Qed.

(** The loop sample by sample: sample [i] gives the cells of [wu_pair] at
    the value accumulated so far. *)
Lemma wu_loop_samples steep n : forall major sM v g,
  wu_loop steep n major sM v g
  = List.concat (map (fun i => wu_pair steep (major + sM * Z.of_nat i)
                                  (accumulate i v g))
                (seq 0 n)).
Proof.
  induction n as [|n IH]; intros major sM v g; [reflexivity|].
  cbn [wu_loop seq map List.concat accumulate].
  replace (major + sM * Z.of_nat 0) with major by lia.
  f_equal. rewrite IH, <- seq_shift, map_map. f_equal.
  apply map_ext. intros i. cbn [accumulate]. f_equal. lia.
Qed.

(** The shape of Wu's output for distinct endpoints: the start, the pairs of
    the samples strictly between the endpoints, the end. *)
Lemma Wu_shape x0 y0 x1 y1 :
  (0 < steps x0 y0 x1 y1)%nat ->
  exists steep major v g,
    Wu x0 y0 x1 y1
    = (x0, y0, opaque)
      :: wu_loop steep (steps x0 y0 x1 y1 - 1) major
                 (if steep then Z.sgn (y1 - y0) else Z.sgn (x1 - x0)) v g
      ++ [(x1, y1, opaque)]
    /\ steep = negb (Z.abs (y1 - y0) <=? Z.abs (x1 - x0))
    /\ major = (if steep then y0 + Z.sgn (y1 - y0) else x0 + Z.sgn (x1 - x0))
    /\ forall i : nat,
         (accumulate i v g == ideal x0 y0 x1 y1 (Z.of_nat (S i)))%Q.
Proof.
  unfold steps, d_major, Wu, ideal. intros Hpos.
  assert (Hne : (x1 - x0 =? 0) && (y1 - y0 =? 0) = false).
  { destruct (Z.eqb_spec (x1 - x0) 0) as [Hx|]; [|reflexivity].
    destruct (Z.eqb_spec (y1 - y0) 0) as [Hy|]; [|reflexivity].
    rewrite Hx, Hy in Hpos. cbn in Hpos. lia. }
  rewrite Hne.
  destruct (Z.leb_spec (Z.abs (y1 - y0)) (Z.abs (x1 - x0))) as [Hle|Hlt].
  - rewrite Z.max_l by lia.
    eexists false, _, _, _. split; [reflexivity|].
    split; [reflexivity|]. split; [reflexivity|].
    intros i. rewrite accumulate_eq, Nat2Z.inj_succ. unfold Z.succ.
    rewrite inject_Z_plus. change (inject_Z 1) with 1%Q. ring.
  - rewrite Z.max_r by lia.
    eexists true, _, _, _. split; [reflexivity|].
    split; [reflexivity|]. split; [reflexivity|].
    intros i. rewrite accumulate_eq, Nat2Z.inj_succ. unfold Z.succ.
    rewrite inject_Z_plus. change (inject_Z 1) with 1%Q. ring.
Qed.

Lemma Forall2_map_same {A B C} (P : B -> C -> Prop) (f : A -> B) (g : A -> C)
    (l : list A) :
  (forall a, In a l -> P (f a) (g a)) -> Forall2 P (map f l) (map g l).
Proof.
  induction l as [|a l IH]; intros H; cbn [map]; constructor.
  - apply H. now left.
  - apply IH. intros a' Ha'. apply H. now right.
Qed.

(** The cells of [wu_pair] at a value of the ideal line are the cells of
    that sample. *)
Lemma wu_pair_sample_cells x0 y0 x1 y1 (i : nat) steep major v :
  (v == ideal x0 y0 x1 y1 (Z.of_nat i))%Q ->
  (forall m w, plot steep major m w
               = cell_of_sample x0 y0 x1 y1 (Z.of_nat i) m w) ->
  sample_cells x0 y0 x1 y1 i (wu_pair steep major v).
Proof.
  intros Hv Hcell. exists v. split; [exact Hv|]. cbv zeta.
  unfold wu_pair. fold (frac v).
  destruct (Qeq_bool (frac v) 0) eqn:Hf.
  - left. apply Qeq_bool_iff in Hf. split; [exact Hf|]. now rewrite Hcell.
  - right. apply Qeq_bool_neq in Hf. destruct (frac_range v) as [Hlo Hhi].
    split; [|split; [exact Hhi|now rewrite !Hcell]].
    apply Qle_lteq in Hlo. destruct Hlo as [Hlt|Heq]; [exact Hlt|].
    exfalso. apply Hf. now symmetry.
Qed.

(** An endpoint is the cell of its sample: the ideal line is on it. *)
Lemma endpoint_sample_cells x0 y0 x1 y1 (i : nat) (x y minor : Z) :
  (inject_Z minor == ideal x0 y0 x1 y1 (Z.of_nat i))%Q ->
  cell_of_sample x0 y0 x1 y1 (Z.of_nat i) minor opaque = (x, y, opaque) ->
  sample_cells x0 y0 x1 y1 i [(x, y, opaque)].
Proof.
  intros Hv Hcell. exists (inject_Z minor). split; [exact Hv|]. cbv zeta.
  left. rewrite Qfloor_Z. split; [ring|]. now rewrite Hcell.
Qed.

Lemma sample_cells_total x0 y0 x1 y1 i cells :
  sample_cells x0 y0 x1 y1 i cells -> (total_opacity cells == 1)%Q.
Proof.
  intros (v & _ & [[_ ->]|(_ & _ & ->)]); unfold total_opacity, cell_of_sample;
    destruct (Z.abs (y1 - y0) <=? Z.abs (x1 - x0));
    cbn [fold_right opacity snd]; unfold opaque; ring.
Qed.

(** Wu's output, sample by sample. *)
Lemma Wu_samples x0 y0 x1 y1 :
  exists samples : list (list Cell),
    Wu x0 y0 x1 y1 = List.concat samples
    /\ Forall2 (sample_cells x0 y0 x1 y1) (seq 0 (S (steps x0 y0 x1 y1))) samples.
Proof.
  destruct (Nat.eq_dec (steps x0 y0 x1 y1) 0) as [Hz|Hnz].
  - assert (x1 = x0 /\ y1 = y0) as [-> ->]
      by (unfold steps, d_major in Hz; lia).
    exists [[(x0, y0, opaque)]]. rewrite Wu_degenerate. split; [reflexivity|].
    rewrite Hz. cbn [seq]. constructor; [|constructor].
    apply (endpoint_sample_cells x0 y0 x0 y0 0 x0 y0 y0).
    + unfold ideal. rewrite !Z.sub_diag. cbn [Z.abs Z.leb Z.compare Z.of_nat].
      change (inject_Z 0) with 0%Q. ring.
    + unfold cell_of_sample. rewrite !Z.sub_diag. cbn [Z.abs Z.leb Z.compare].
      do 2 f_equal. lia.
  - destruct (Wu_shape x0 y0 x1 y1) as (steep & major & v & g & HW & Hs & Hm & Hv);
      [lia|].
    assert (Hpos : 0 < d_major x0 y0 x1 y1) by (unfold steps in Hnz; lia).
    assert (Hn : Z.of_nat (steps x0 y0 x1 y1) = d_major x0 y0 x1 y1)
      by (unfold steps; lia).
    set (n := steps x0 y0 x1 y1) in *.
    set (sM := if steep then Z.sgn (y1 - y0) else Z.sgn (x1 - x0)) in *.
    exists ([(x0, y0, opaque)]
            :: map (fun i => wu_pair steep (major + sM * Z.of_nat i)
                                     (accumulate i v g))
                   (seq 0 (n - 1))
            ++ [[(x1, y1, opaque)]]).
    split.
    + rewrite HW, wu_loop_samples. cbn [List.concat app].
      now rewrite concat_app.
    + replace (S n) with (1 + (n - 1) + 1)%nat by lia.
      rewrite !seq_app. cbn [seq app Nat.add].
      constructor; [|apply Forall2_app].
      * (* the start *)
        unfold ideal, cell_of_sample, d_major in *.
        destruct (Z.leb_spec (Z.abs (y1 - y0)) (Z.abs (x1 - x0))).
        -- apply (endpoint_sample_cells x0 y0 x1 y1 0 x0 y0 y0);
             unfold ideal, cell_of_sample;
             destruct (Z.leb_spec (Z.abs (y1 - y0)) (Z.abs (x1 - x0))); try lia.
           ++ change (inject_Z (Z.of_nat 0)) with 0%Q. ring.
           ++ do 2 f_equal. lia.
        -- apply (endpoint_sample_cells x0 y0 x1 y1 0 x0 y0 x0);
             unfold ideal, cell_of_sample;
             destruct (Z.leb_spec (Z.abs (y1 - y0)) (Z.abs (x1 - x0))); try lia.
           ++ change (inject_Z (Z.of_nat 0)) with 0%Q. ring.
           ++ do 2 f_equal. lia.
      * (* the samples in between *)
        rewrite <- seq_shift. apply Forall2_map_same. intros i Hi.
        apply in_seq in Hi.
        apply wu_pair_sample_cells; [apply Hv|].
        intros m w. unfold cell_of_sample, plot. subst steep major sM.
        destruct (Z.abs (y1 - y0) <=? Z.abs (x1 - x0)); cbn [negb];
          do 2 f_equal; lia.
      * (* the end *)
        constructor; [|constructor].
        replace (S (n - 1)) with n by lia.
        pose proof (Z.sgn_abs (x1 - x0)) as Hsx.
        pose proof (Z.sgn_abs (y1 - y0)) as Hsy.
        unfold d_major in *.
        destruct (Z.leb_spec (Z.abs (y1 - y0)) (Z.abs (x1 - x0))).
        -- apply (endpoint_sample_cells x0 y0 x1 y1 n x1 y1 y1);
             unfold ideal, cell_of_sample;
             destruct (Z.leb_spec (Z.abs (y1 - y0)) (Z.abs (x1 - x0))); try lia.
           ++ rewrite Hn, Z.max_l by lia.
             replace y1 with (y0 + (y1 - y0)) at 1 by lia.
             rewrite inject_Z_plus. field.
             intros H1. unfold Qeq in H1. cbn in H1. lia.
           ++ rewrite Hn, Z.max_l by lia. do 2 f_equal. lia.
        -- apply (endpoint_sample_cells x0 y0 x1 y1 n x1 y1 x1);
             unfold ideal, cell_of_sample;
             destruct (Z.leb_spec (Z.abs (y1 - y0)) (Z.abs (x1 - x0))); try lia.
           ++ rewrite Hn, Z.max_r by lia.
             replace x1 with (x0 + (x1 - x0)) at 1 by lia.
             rewrite inject_Z_plus. field.
             intros H1. unfold Qeq in H1. cbn in H1. lia.
           ++ rewrite Hn, Z.max_r by lia. do 2 f_equal. lia.
Qed.

(** C3, as the claim states it, fails: not every sampled step emits two
    cells.  A sample that falls exactly on a cell emits that cell alone,
    fully opaque; this is so at both endpoints of every segment and at every
    sample of the horizontal segment of section 8, whose four samples give
    four cells, no two of them on the same sample. *)
Lemma Wu_two_cells_counterexample :
  Wu 0 0 3 0 = [(0, 0, opaque); (1, 0, opaque); (2, 0, opaque); (3, 0, opaque)]
  /\ (forall c1 c2 : Cell,
        In c1 (Wu 0 0 3 0) -> In c2 (Wu 0 0 3 0) ->
        cell_x c1 = cell_x c2 -> c1 = c2)
  /\ Wu 2 2 2 2 = [(2, 2, opaque)].
Proof.
  split; [reflexivity|]. split; [|reflexivity].
  change (Wu 0 0 3 0)
    with [(0, 0, opaque); (1, 0, opaque); (2, 0, opaque); (3, 0, opaque)].
  intros c1 c2 H1 H2. cbn [In] in H1, H2.
  destruct H1 as [<-|[<-|[<-|[<-|[]]]]];
    destruct H2 as [<-|[<-|[<-|[<-|[]]]]];
    cbn; intros H; try reflexivity; discriminate H.
Qed.

(** C3, amended.  Whatever the two grid points, Wu's output is made of the
    cells of the samples 0 to [max(|dx|, |dy|)] along the major axis, one
    sample after the other, and the weights of the cells of each sample add
    up to one.  With [v] the ideal line at the sample and [f] its fractional
    part: when [f] is zero, as it is at both endpoints, the sample gives the
    cell at [floor v] alone, fully opaque; otherwise it gives two cells, the
    one at [floor v] with weight [1 - f] and the next one with weight
    [f]. *)
Theorem Wu_sample_weights_sum_to_one :
  forall (x0 y0 x1 y1 : Z),
    exists samples : list (list Cell),
      Wu x0 y0 x1 y1 = List.concat samples
      /\ Forall2 (sample_cells x0 y0 x1 y1)
                 (seq 0 (S (steps x0 y0 x1 y1))) samples
      /\ Forall (fun cells => (total_opacity cells == 1)%Q) samples.
Proof.
  intros x0 y0 x1 y1.
  destruct (Wu_samples x0 y0 x1 y1) as (samples & HW & Hs).
  exists samples. split; [exact HW|]. split; [exact Hs|].
  clear HW. induction Hs as [|i cells l samples Hc _ IH]; constructor.
  - exact (sample_cells_total _ _ _ _ _ _ Hc).
  - exact IH.
Qed.

(** C4.  Whatever the two grid points, Wu's output starts with the start
    cell and ends with the end cell, both fully opaque, and every cell of the
    output that lies on the start or on the end is fully opaque. *)
Theorem Wu_endpoints_opaque :
  forall (x0 y0 x1 y1 : Z),
    hd_error (Wu x0 y0 x1 y1) = Some (x0, y0, opaque)
    /\ last (Wu x0 y0 x1 y1) (x0, y0, opaque) = (x1, y1, opaque)
    /\ forall c : Cell,
         In c (Wu x0 y0 x1 y1) ->
         (cell_x c = x0 /\ cell_y c = y0) \/ (cell_x c = x1 /\ cell_y c = y1) ->
         opacity c = opaque.
Proof.
  intros x0 y0 x1 y1.
  destruct (Nat.eq_dec (steps x0 y0 x1 y1) 0) as [Hz|Hnz].
  - assert (x1 = x0 /\ y1 = y0) as [-> ->]
      by (unfold steps, d_major in Hz; lia).
    rewrite Wu_degenerate. cbn.
    repeat split. intros c [<-|[]] _. reflexivity.
  - destruct (Wu_shape x0 y0 x1 y1) as (steep & major & v & g & HW & Hs & Hm & _);
      [lia|].
    rewrite HW. split; [reflexivity|]. split.
    + rewrite app_comm_cons. apply last_last.
    + intros c Hin Hpos.
      destruct Hin as [<-|Hin]; [reflexivity|].
      apply in_app_or in Hin. destruct Hin as [Hin|[<-|[]]]; [|reflexivity].
      exfalso.
      apply wu_loop_In in Hin. destruct Hin as (i & m & w & Hi & ->).
      unfold steps, d_major in Hi, Hnz.
      subst steep major. unfold plot, cell_x, cell_y in Hpos.
      destruct (Z.leb_spec (Z.abs (y1 - y0)) (Z.abs (x1 - x0)));
        cbn [negb fst snd] in Hpos; lia.
Qed.

(** ** Reversing the segment *)















(** A segment with a tie: its middle sample is half-way between
    two rows and goes to the upper one from either end. *)
Example Bresenham_half_way :
  Bresenham 0 0 2 1 = [(0, 0, opaque); (1, 1, opaque); (2, 1, opaque)]
  /\ Bresenham 2 1 0 0 = [(2, 1, opaque); (1, 1, opaque); (0, 0, opaque)].
Proof. split; reflexivity. Qed.


End RasterizerProofs.

(* ================================================================== *)
(** * Part IV: properties of the application                           *)
(* ================================================================== *)

Module AppProofs.

Import App.

Section WithAlgorithms.

Variable get_points : AlgorithmClass -> Z -> option Z -> Z -> Z -> list Point.

(** ** The click handler without a selection *)

(** C6.  A click while none of the three algorithm slots holds an algorithm
    shows the warning and returns: nothing but the message box changes; the
    pending start coordinates and the canvas are as before. *)
Theorem click_without_algorithm :
  forall (event : Event) (self : DrawingApp),
    _current_line_algorithm self = None ->
    _current_curve_algorithm self = None ->
    _current_parametric_algorithm self = None ->
    exists self',
      _on_canvas_click get_points event self = Ok tt self'
      /\ self' = set_messagebox
                   (messagebox self
                    ++ [("warning", "Warning", "No algorithm selected.")%string])
                   self
      /\ _start_x self' = _start_x self
      /\ _start_y self' = _start_y self
      /\ _canvas self' = _canvas self.
Proof.
  intros event self Hl Hc Hp.
  eexists. split.
  - unfold _on_canvas_click, bind, get, no_algorithm_selected.
    rewrite Hl, Hc, Hp. cbn. reflexivity.
  - repeat split.
Qed.

(** ** Selecting an algorithm *)

Lemma _set_line_algorithm_spec cls self :
  _set_line_algorithm (label cls) self
  = Ok tt (set_title (label cls)
             (set_current_line_algorithm (Some cls)
                (state_of (_uncheck_all_algorithms self)))).
Proof. now destruct cls. Qed.

(** C8.  Each command of the Line menu first clears the line-algorithm slot
    and then stores the class of its label and sets the window title to the
    label.  Everything else, the canvas included, is as before. *)
Theorem set_line_algorithm_frame :
  forall (cls : AlgorithmClass) (self : DrawingApp),
    exists self',
      _set_line_algorithm (label cls) self = Ok tt self'
      /\ self' = set_title (label cls)
                   (set_current_line_algorithm (Some cls)
                      (state_of (_uncheck_all_algorithms self)))
      /\ _current_line_algorithm (state_of (_uncheck_all_algorithms self)) = None
      /\ _current_line_algorithm self' = Some cls
      /\ title self' = label cls
      /\ _canvas self' = _canvas self
      /\ (_start_x self', _start_y self') = (_start_x self, _start_y self)
      /\ _grid_size self' = _grid_size self
      /\ _current_curve_algorithm self' = _current_curve_algorithm self
      /\ _current_parametric_algorithm self' = _current_parametric_algorithm self
      /\ _debug_mode self' = _debug_mode self
      /\ (winfo_width self', winfo_height self')
         = (winfo_width self, winfo_height self)
      /\ messagebox self' = messagebox self
      /\ stdout self' = stdout self
      /\ after_queue self' = after_queue self.
Proof.
  intros cls self. eexists.
  split; [apply _set_line_algorithm_spec|]. repeat split.
Qed.

(** ** The dispatch of the click handler *)

Lemma selected_dispatches self :
  no_algorithm_selected self = false ->
  exists cls, select_algorithm self = Some cls.
Proof.
  unfold no_algorithm_selected, any, select_algorithm. cbn [existsb].
  destruct (_current_line_algorithm self) as [c|]; [eauto|].
  destruct (_current_curve_algorithm self) as [c|]; [eauto|].
  destruct (_current_parametric_algorithm self) as [c|]; [eauto|].
  cbn. discriminate.
Qed.

(** ** The two ways of drawing *)

Lemma set_canvas_same self : set_canvas (_canvas self) self = self.
Proof. now destruct self. Qed.

Lemma _draw_points_spec points : forall self,
  _draw_points points self
  = Ok tt (set_canvas
             (_canvas self ++ map (cell_rectangle (_grid_size self)) points)
             self).
Proof.
  unfold _draw_points.
  induction points as [|[[x y] color] points IH]; intros self.
  - cbn [for_each map ret]. now rewrite app_nil_r, set_canvas_same.
  - cbn [for_each map].
    unfold bind at 1. unfold bind at 1. unfold get at 1.
    unfold create_rectangle, create, bind, get, modify.
    fold (@bind unit unit). rewrite IH. cbn [_canvas _grid_size set_canvas].
    now rewrite <- app_assoc.
Qed.

(** One call of [_draw_points_with_latency] on an index inside the list. *)
Lemma _draw_points_with_latency_step points index p self :
  nth_error points index = Some p ->
  _draw_points_with_latency points index self
  = Ok tt
      (set_after_queue (after_queue self ++ [(50, (points, (index + 1)%nat))])
         (set_stdout (stdout self ++ [point_line p])
            (set_canvas (_canvas self ++ [cell_rectangle (_grid_size self) p])
               self))).
Proof.
  intros Hp. unfold _draw_points_with_latency.
  assert (Hlt : (index < List.length points)%nat)
    by (apply nth_error_Some; congruence).
  destruct (Nat.leb_spec (List.length points) index) as [|_]; [lia|].
  rewrite Hp. destruct p as [[x y] color]. reflexivity.
Qed.

(** One call of [_draw_points_with_latency] on an index past the list. *)
Lemma _draw_points_with_latency_done points index self :
  (List.length points <= index)%nat ->
  _draw_points_with_latency points index self = Ok tt self.
Proof.
  intros Hle. unfold _draw_points_with_latency.
  destruct (Nat.leb_spec (List.length points) index) as [_|]; [reflexivity|lia].
Qed.

Lemma run_pending_empty fuel self :
  after_queue self = [] -> run_pending fuel self = Ok tt self.
Proof.
  intros H. destruct fuel; [reflexivity|].
  cbn [run_pending]. unfold bind, get. now rewrite H.
Qed.

Lemma run_pending_cons fuel self ms points index rest :
  after_queue self = (ms, (points, index)) :: rest ->
  run_pending (S fuel) self
  = (_draw_points_with_latency points index ;; run_pending fuel)
      (set_after_queue rest self).
Proof.
  intros H. cbn [run_pending]. unfold run_after, bind, get, modify.
  cbv beta. rewrite !H. reflexivity.
Qed.

(** The chain of calls started at the end of [pre] paints and prints the
    rest of the list, in order, and leaves no callback pending. *)
Lemma draw_with_latency_chain suf : forall pre self fuel,
  after_queue self = [] ->
  (List.length suf <= fuel)%nat ->
  (_draw_points_with_latency (pre ++ suf) (List.length pre) ;; run_pending fuel)
    self
  = Ok tt
      (set_stdout (stdout self ++ map point_line suf)
         (set_canvas
            (_canvas self ++ map (cell_rectangle (_grid_size self)) suf)
            self)).
Proof.
  induction suf as [|p suf IH]; intros pre self fuel Hq Hfuel.
  - unfold bind. rewrite _draw_points_with_latency_done
      by (rewrite length_app; cbn; lia).
    rewrite run_pending_empty by assumption.
    destruct self. cbn. now rewrite !app_nil_r.
  - destruct fuel as [|fuel]; [cbn in Hfuel; lia|].
    unfold bind.
    rewrite (_draw_points_with_latency_step _ _ p)
      by (rewrite nth_error_app2, Nat.sub_diag by lia; reflexivity).
    erewrite run_pending_cons
      by (cbn [after_queue set_after_queue]; rewrite Hq; reflexivity).
    replace (pre ++ p :: suf) with ((pre ++ [p]) ++ suf)
      by (rewrite <- app_assoc; reflexivity).
    replace (List.length pre + 1)%nat with (List.length (pre ++ [p]))
      by (rewrite length_app; reflexivity).
    rewrite IH; [|reflexivity|cbn in Hfuel; lia].
    destruct self. cbn in *. subst. now rewrite <- !app_assoc.
Qed.

(** C9, as the claim states it, fails: the delay is not the only
    difference.  Debug mode prints a line for every cell it paints and
    [_draw_points] prints nothing, so the two runs end with different
    output on the console. *)
Lemma debug_drawing_counterexample :
  let self := state_of (__init__ 1 1) in
  let points := [(0, 0, "black"%string)] in
  let debug := state_of ((_draw_points_with_latency points 0 ;; run_pending 1) self) in
  let direct := state_of (_draw_points points self) in
  _canvas debug = _canvas direct
  /\ stdout debug = ["Point:     0     0"%string]
  /\ stdout direct = []
  /\ debug <> direct.
Proof.
  cbv zeta. split; [reflexivity|]. split; [reflexivity|]. split; [reflexivity|].
  intros H. apply (f_equal stdout) in H. vm_compute in H. discriminate H.
Qed.

(** C9, amended.  Started at index 0 with no other callback pending and run
    until no callback is left, [_draw_points_with_latency] creates the same
    rectangles as [_draw_points], in the same order: one per point, scaled by
    the grid size, outlined in black and filled with the point's colour.
    The two runs differ in the delay between the cells and in the line
    ["Point: x y"] that debug mode prints for each cell, and in nothing
    else.  As many callbacks as there are points are enough. *)
Theorem debug_drawing_same_rectangles :
  forall (points : list Point) (self : DrawingApp) (fuel : nat),
    after_queue self = [] ->
    (List.length points <= fuel)%nat ->
    exists debug direct : DrawingApp,
      (_draw_points_with_latency points 0 ;; run_pending fuel) self = Ok tt debug
      /\ _draw_points points self = Ok tt direct
      /\ _canvas direct
         = _canvas self ++ map (cell_rectangle (_grid_size self)) points
      /\ _canvas debug = _canvas direct
      /\ after_queue debug = []
      /\ stdout direct = stdout self
      /\ stdout debug = stdout self ++ map point_line points
      /\ debug = set_stdout (stdout self ++ map point_line points) direct.
Proof.
  intros points self fuel Hq Hfuel.
  do 2 eexists.
  split; [exact (draw_with_latency_chain points [] self fuel Hq Hfuel)|].
  split; [apply _draw_points_spec|].
  repeat split. exact Hq.
Qed.

(** ** The click handler with a selection *)

Lemma click_zero_grid event self :
  no_algorithm_selected self = false ->
  _grid_size self = 0 ->
  _on_canvas_click get_points event self = Raise ZeroDivisionError self.
Proof.
  intros Hsel Hg. unfold _on_canvas_click, bind, get, floordiv.
  rewrite Hsel, Hg. now destruct (_start_x self).
Qed.

Lemma click_first event self :
  no_algorithm_selected self = false ->
  _grid_size self <> 0 ->
  _start_x self = None ->
  _on_canvas_click get_points event self
  = Ok tt
      (set_canvas (_canvas self ++ [click_mark event])
         (set_start_y (Some (event_y event / _grid_size self))
            (set_start_x (Some (event_x event / _grid_size self)) self))).
Proof.
  intros Hsel Hg Hx. unfold _on_canvas_click, bind, get, floordiv.
  rewrite Hsel, Hx. apply Z.eqb_neq in Hg. rewrite Hg. reflexivity.
Qed.

Lemma click_second event self start_x cls :
  no_algorithm_selected self = false ->
  _grid_size self <> 0 ->
  _start_x self = Some start_x ->
  select_algorithm self = Some cls ->
  let points_to_draw :=
    get_points cls start_x (_start_y self)
               (event_x event / _grid_size self)
               (event_y event / _grid_size self) in
  _on_canvas_click get_points event self
  = (create (click_mark event) ;;
     (if _debug_mode self
      then _draw_points_with_latency points_to_draw 0
      else _draw_points points_to_draw) ;;
     modify (set_start_x None) ;;
     modify (set_start_y None)) self.
Proof.
  intros Hsel Hg Hx Hcls. unfold _on_canvas_click, bind, get, floordiv.
  rewrite Hsel, Hx, Hcls. apply Z.eqb_neq in Hg. rewrite Hg. reflexivity.
Qed.

(** Painting the points, either way, returns. *)
Lemma drawing_returns (debug : bool) points self :
  exists self',
    (if debug then _draw_points_with_latency points 0 else _draw_points points)
      self = Ok tt self'
    /\ _grid_size self' = _grid_size self
    /\ _start_x self' = _start_x self
    /\ _start_y self' = _start_y self
    /\ _current_line_algorithm self' = _current_line_algorithm self
    /\ _current_curve_algorithm self' = _current_curve_algorithm self
    /\ _current_parametric_algorithm self' = _current_parametric_algorithm self.
Proof.
  destruct debug.
  - destruct points as [|p points].
    + rewrite _draw_points_with_latency_done by (cbn; lia).
      eexists; repeat split.
    + rewrite (_draw_points_with_latency_step _ _ p) by reflexivity.
      eexists; repeat split.
  - rewrite _draw_points_spec. eexists; repeat split.
Qed.

(** C10.  When the guard at the top of [_on_canvas_click] lets the click
    through, that is when one of the three slots is truthy, the dispatch finds a
    slot that is not [None], and the handler does not end in the [raise] that
    closes the dispatch. *)
Theorem dispatch_raise_unreachable :
  forall (event : Event) (self : DrawingApp),
    any [ _current_line_algorithm self;
          _current_curve_algorithm self;
          _current_parametric_algorithm self ] = true ->
    (exists cls, select_algorithm self = Some cls)
    /\ forall self', _on_canvas_click get_points event self <> Raise TypeError self'.
Proof.
  intros event self Hany.
  assert (Hsel : no_algorithm_selected self = false)
    by (unfold no_algorithm_selected; now rewrite Hany).
  destruct (selected_dispatches self Hsel) as [cls Hcls].
  split; [now exists cls|].
  intros self'.
  destruct (Z.eq_dec (_grid_size self) 0) as [Hg|Hg].
  - rewrite click_zero_grid by assumption. discriminate.
  - destruct (_start_x self) as [start_x|] eqn:Hx.
    + rewrite (click_second event self start_x cls) by assumption.
      unfold bind at 1. unfold create at 1. unfold bind, get, modify.
      match goal with
      | |- context [(if ?d then _ else _) ?s] =>
          destruct (drawing_returns d
            (get_points cls start_x (_start_y self)
               (event_x event / _grid_size self)
               (event_y event / _grid_size self)) s) as (s' & Hs' & _)
      end.
      rewrite Hs'. discriminate.
    + rewrite click_first by assumption. discriminate.
Qed.

(** ** The states of a running application *)

Lemma for_each_create {A} (f : A -> Item) (l : list A) : forall self,
  for_each l (fun a => create (f a)) self
  = Ok tt (set_canvas (_canvas self ++ map f l) self).
Proof.
  induction l as [|a l IH]; intros self.
  - cbn [for_each map ret]. now rewrite app_nil_r, set_canvas_same.
  - cbn [for_each map]. unfold bind at 1. unfold create at 1.
    unfold bind at 1. unfold get at 1. unfold modify at 1.
    rewrite IH. cbn [_canvas set_canvas]. now rewrite <- app_assoc.
Qed.

Lemma _draw_grid_spec self :
  _grid_size self <> 0 ->
  _draw_grid self = Ok tt (set_canvas (grid_canvas self) self).
Proof.
  intros Hg. apply Z.eqb_neq in Hg.
  unfold _draw_grid, delete, range.
  unfold bind at 1. unfold bind at 1. unfold get at 1.
  cbn [String.eqb Ascii.eqb Bool.eqb]. unfold modify at 1.
  unfold bind at 1. unfold get at 1.
  cbn [_grid_size winfo_width winfo_height set_canvas]. rewrite Hg.
  unfold bind at 1. unfold ret at 1.
  unfold bind at 1. unfold create_line.
  rewrite (for_each_create
             (fun x => line x 0 x (winfo_height self) "lightgray" "grid")).
  unfold bind at 1. unfold ret at 1.
  rewrite (for_each_create
             (fun y => line 0 y (winfo_width self) y "lightgray" "grid")).
  cbn [_canvas set_canvas]. unfold grid_canvas. now rewrite <- app_assoc.
Qed.

Lemma click_guard event self :
  no_algorithm_selected self = true ->
  _on_canvas_click get_points event self
  = Ok tt (set_messagebox
             (messagebox self
              ++ [("warning", "Warning", "No algorithm selected.")%string])
             self).
Proof.
  intros Hsel. unfold _on_canvas_click, bind, get. now rewrite Hsel.
Qed.

(** A call of [_draw_points_with_latency] returns, whatever the index, and
    touches none of the attributes. *)
Lemma latency_returns points index self :
  exists self',
    _draw_points_with_latency points index self = Ok tt self'
    /\ _grid_size self' = _grid_size self
    /\ _start_x self' = _start_x self
    /\ _start_y self' = _start_y self
    /\ _current_line_algorithm self' = _current_line_algorithm self
    /\ _current_curve_algorithm self' = _current_curve_algorithm self
    /\ _current_parametric_algorithm self' = _current_parametric_algorithm self.
Proof.
  destruct (nth_error points index) as [p|] eqn:Hp.
  - rewrite (_draw_points_with_latency_step _ _ p) by assumption.
    eexists; repeat split.
  - rewrite _draw_points_with_latency_done by (now apply nth_error_None).
    eexists; repeat split.
Qed.

(** Every handler returns in a state that satisfies the invariant and leaves
    one that does. *)
Lemma handle_spec ev self :
  invariant self ->
  exists self', handle get_points ev self = Ok tt self' /\ invariant self'.
Proof.
  unfold invariant. intros (Hg & Hxy & Hc & Hp).
  assert (Hg0 : _grid_size self <> 0) by lia.
  destruct ev as [event|w h|cls| |]; cbn [handle].
  - destruct (no_algorithm_selected self) eqn:Hsel.
    + rewrite click_guard by assumption. eexists. split; [reflexivity|].
      cbn. tauto.
    + destruct (selected_dispatches self Hsel) as [cls Hcls].
      destruct (_start_x self) as [start_x|] eqn:Hx.
      * rewrite (click_second event self start_x cls) by assumption.
        unfold bind at 1. unfold create at 1. unfold bind, get, modify.
        match goal with
        | |- context [(if ?d then _ else _) ?s] =>
            destruct (drawing_returns d
              (get_points cls start_x (_start_y self)
                 (event_x event / _grid_size self)
                 (event_y event / _grid_size self)) s)
              as (s' & Hs' & Hg' & _ & _ & _ & Hc' & Hp')
        end.
        rewrite Hs'. eexists. split; [reflexivity|].
        cbn in *. rewrite Hg', Hc', Hp'. tauto.
      * rewrite click_first by assumption. eexists. split; [reflexivity|].
        cbn. repeat split; try assumption; discriminate.
  - unfold bind, modify.
    rewrite _draw_grid_spec by assumption. eexists. split; [reflexivity|].
    cbn. tauto.
  - rewrite _set_line_algorithm_spec. eexists. split; [reflexivity|].
    cbn. tauto.
  - eexists. split; [reflexivity|]. cbn. tauto.
  - unfold run_after, bind, get.
    destruct (after_queue self) as [|[ms [points index]] rest].
    + eexists. split; [reflexivity|]. tauto.
    + unfold modify.
      destruct (latency_returns points index (set_after_queue rest self))
        as (s' & Hs' & Hg' & Hx' & Hy' & _ & Hc' & Hp').
      rewrite Hs'. eexists. split; [reflexivity|].
      cbn in *. rewrite Hg', Hx', Hy', Hc', Hp'. tauto.
Qed.

Lemma __init___spec w h :
  exists self, __init__ w h = Ok tt self /\ invariant self.
Proof.
  unfold __init__. rewrite _draw_grid_spec by (cbn; lia).
  eexists. split; [reflexivity|]. unfold invariant. cbn. tauto.
Qed.

Lemma reachable_invariant self :
  reachable get_points self -> invariant self.
Proof.
  induction 1 as [w h|ev self _ IH].
  - destruct (__init___spec w h) as (s & Hs & Hinv). now rewrite Hs.
  - destruct (handle_spec ev self IH) as (s & Hs & Hinv). now rewrite Hs.
Qed.

(** ** From pixels to grid coordinates *)

(** C7.  In every state of a running application the grid size is 5, and a
    click that passes the guard is mapped to the grid by floor division by
    5.  The first click of a pair records [event.x // 5] and [event.y // 5]
    as the start.  The second click calls the selected class with the
    recorded start and with [event.x // 5] and [event.y // 5] as the end; the
    points it returns are painted (all of them at once, or the first one and
    a callback for the others in debug mode), and the start is reset. *)
Theorem click_grid_coordinates :
  forall (event : Event) (self : DrawingApp),
    reachable get_points self ->
    no_algorithm_selected self = false ->
    _grid_size self = 5
    /\ exists self',
         _on_canvas_click get_points event self = Ok tt self'
         /\ _grid_size self' = 5
         /\ match _start_x self with
            | None =>
                _start_x self' = Some (event_x event / 5)
                /\ _start_y self' = Some (event_y event / 5)
                /\ _canvas self' = _canvas self ++ [click_mark event]
            | Some start_x =>
                exists cls,
                  select_algorithm self = Some cls
                  /\ let points_to_draw :=
                       get_points cls start_x (_start_y self)
                                  (event_x event / 5) (event_y event / 5) in
                     _start_x self' = None
                     /\ _start_y self' = None
                     /\ _canvas self'
                        = _canvas self ++ click_mark event ::
                          map (cell_rectangle 5)
                              (if _debug_mode self
                               then firstn 1 points_to_draw
                               else points_to_draw)
                     /\ after_queue self'
                        = after_queue self ++
                          (if _debug_mode self
                           then match points_to_draw with
                                | [] => []
                                | _ :: _ => [(50, (points_to_draw, 1%nat))]
                                end
                           else [])
            end.
Proof.
  intros event self Hreach Hsel.
  destruct (reachable_invariant self Hreach) as (Hg & _).
  split; [exact Hg|].
  assert (Hg0 : _grid_size self <> 0) by lia.
  destruct (_start_x self) as [start_x|] eqn:Hx.
  - destruct (selected_dispatches self Hsel) as [cls Hcls].
    rewrite (click_second event self start_x cls) by assumption.
    rewrite Hg.
    cbv zeta.
    remember (get_points cls start_x (_start_y self)
                (event_x event / 5) (event_y event / 5)) as points_to_draw.
    unfold bind at 1. unfold create at 1. unfold bind, get, modify.
    destruct (_debug_mode self).
    + destruct points_to_draw as [|p points].
      * rewrite _draw_points_with_latency_done by (cbn; lia).
        eexists. split; [reflexivity|]. split; [exact Hg|].
        exists cls. split; [exact Hcls|]. cbv zeta.
        rewrite <- Heqpoints_to_draw. cbn.
        rewrite app_nil_r. repeat split.
      * rewrite (_draw_points_with_latency_step _ _ p) by reflexivity.
        eexists. split; [reflexivity|]. split; [exact Hg|].
        exists cls. split; [exact Hcls|]. cbv zeta.
        rewrite <- Heqpoints_to_draw. cbn [set_start_x set_start_y
          set_after_queue set_stdout set_canvas _start_x _start_y _canvas
          after_queue _grid_size firstn map].
        rewrite Hg, <- app_assoc. repeat split.
    + rewrite _draw_points_spec.
      eexists. split; [reflexivity|]. split; [exact Hg|].
      exists cls. split; [exact Hcls|]. cbv zeta.
        rewrite <- Heqpoints_to_draw. cbn [set_start_x set_start_y
          set_after_queue set_stdout set_canvas _start_x _start_y _canvas
          after_queue _grid_size].
      rewrite Hg, <- app_assoc, app_nil_r. repeat split.
  - rewrite click_first by assumption. rewrite Hg.
    eexists. split; [reflexivity|]. repeat split. exact Hg.
Qed.

(** ** Closed forms of the handlers *)

Lemma click_second_direct event self start_x cls :
  no_algorithm_selected self = false ->
  _grid_size self <> 0 ->
  _start_x self = Some start_x ->
  select_algorithm self = Some cls ->
  _debug_mode self = false ->
  _on_canvas_click get_points event self
  = Ok tt
      (set_start_y None
         (set_start_x None
            (set_canvas
               (_canvas self ++ click_mark event ::
                map (cell_rectangle (_grid_size self))
                    (get_points cls start_x (_start_y self)
                       (event_x event / _grid_size self)
                       (event_y event / _grid_size self)))
               self))).
Proof.
  intros Hsel Hg Hx Hcls Hd.
  rewrite (click_second event self start_x cls) by assumption.
  rewrite Hd. unfold bind at 1. unfold create at 1.
  unfold bind, get, modify. rewrite _draw_points_spec.
  cbn [_canvas _grid_size set_canvas]. now rewrite <- app_assoc.
Qed.

Lemma click_second_debug event self start_x cls :
  no_algorithm_selected self = false ->
  _grid_size self <> 0 ->
  _start_x self = Some start_x ->
  select_algorithm self = Some cls ->
  _debug_mode self = true ->
  let points :=
    get_points cls start_x (_start_y self)
               (event_x event / _grid_size self)
               (event_y event / _grid_size self) in
  _on_canvas_click get_points event self
  = Ok tt
      (set_start_y None
         (set_start_x None
            (match points with
             | [] => set_canvas (_canvas self ++ [click_mark event]) self
             | p :: _ =>
                 set_after_queue (after_queue self ++ [(50, (points, 1%nat))])
                   (set_stdout (stdout self ++ [point_line p])
                      (set_canvas
                         (_canvas self ++
                          [click_mark event; cell_rectangle (_grid_size self) p])
                         self))
             end))).
Proof.
  intros Hsel Hg Hx Hcls Hd points.
  rewrite (click_second event self start_x cls) by assumption.
  rewrite Hd. fold points. unfold bind at 1. unfold create at 1.
  unfold bind, get, modify.
  destruct points as [|p points'] eqn:Hpts.
  - rewrite _draw_points_with_latency_done by (cbn; lia). reflexivity.
  - rewrite (_draw_points_with_latency_step _ _ p) by reflexivity.
    cbn [_canvas _grid_size stdout after_queue set_canvas set_stdout
         set_after_queue]. now rewrite <- app_assoc.
Qed.

Lemma run_after_empty self :
  after_queue self = [] -> run_after self = Ok tt self.
Proof.
  intros H. unfold run_after, bind, get. now rewrite H.
Qed.

Lemma run_after_done self ms points index rest :
  after_queue self = (ms, (points, index)) :: rest ->
  (List.length points <= index)%nat ->
  run_after self = Ok tt (set_after_queue rest self).
Proof.
  intros H Hle. unfold run_after, bind, get, modify. rewrite H.
  now rewrite _draw_points_with_latency_done.
Qed.

Lemma run_after_step self ms points index rest p :
  after_queue self = (ms, (points, index)) :: rest ->
  nth_error points index = Some p ->
  run_after self
  = Ok tt
      (set_after_queue (rest ++ [(50, (points, (index + 1)%nat))])
         (set_stdout (stdout self ++ [point_line p])
            (set_canvas (_canvas self ++ [cell_rectangle (_grid_size self) p])
               self))).
Proof.
  intros H Hp. unfold run_after, bind, get, modify. rewrite H.
  now rewrite (_draw_points_with_latency_step _ _ p).
Qed.

(** The three ways a pending callback can run. *)
Lemma run_after_cases self :
  (after_queue self = [] /\ run_after self = Ok tt self)
  \/ (exists ms points index rest,
        after_queue self = (ms, (points, index)) :: rest
        /\ (List.length points <= index)%nat
        /\ run_after self = Ok tt (set_after_queue rest self))
  \/ (exists ms points index rest p,
        after_queue self = (ms, (points, index)) :: rest
        /\ nth_error points index = Some p
        /\ run_after self
           = Ok tt
               (set_after_queue (rest ++ [(50, (points, (index + 1)%nat))])
                  (set_stdout (stdout self ++ [point_line p])
                     (set_canvas
                        (_canvas self ++ [cell_rectangle (_grid_size self) p])
                        self)))).
Proof.
  destruct (after_queue self) as [|[ms [points index]] rest] eqn:Hq.
  - left. split; [reflexivity|]. now apply run_after_empty.
  - right. destruct (nth_error points index) as [p|] eqn:Hp.
    + right. exists ms, points, index, rest, p.
      split; [reflexivity|]. split; [exact Hp|].
      now apply (run_after_step self ms).
    + left. exists ms, points, index, rest.
      apply nth_error_None in Hp.
      split; [reflexivity|]. split; [exact Hp|].
      now apply (run_after_done self ms points index).
Qed.

Lemma configure_spec w h self :
  _grid_size self <> 0 ->
  (modify (set_winfo w h) ;; _draw_grid) self
  = Ok tt (set_canvas (grid_canvas (set_winfo w h self)) (set_winfo w h self)).
Proof.
  intros Hg. unfold bind, modify. now rewrite _draw_grid_spec.
Qed.

Lemma _toggle_debug_mode_spec self :
  _toggle_debug_mode self = Ok tt (set_debug_mode (negb (_debug_mode self)) self).
Proof. reflexivity. Qed.

(** Case analysis on an event in a state that satisfies the invariant: the
    handler is replaced by the state it returns. *)
Ltac handle_cases ev self Hinv :=
  let Hg := fresh "Hg" in
  let Hxy := fresh "Hxy" in
  let Hc := fresh "Hc" in
  let Hp := fresh "Hp" in
  let Hg0 := fresh "Hg0" in
  let Hsel := fresh "Hsel" in
  let Hcls := fresh "Hcls" in
  let Hx := fresh "Hx" in
  let Hd := fresh "Hd" in
  let Hq := fresh "Hq" in
  let Hidx := fresh "Hidx" in
  let event := fresh "event" in
  let w := fresh "w" in
  let h := fresh "h" in
  let cls := fresh "cls" in
  let start_x := fresh "start_x" in
  let ms := fresh "ms" in
  let points := fresh "points" in
  let index := fresh "index" in
  let rest := fresh "rest" in
  let p := fresh "p" in
  pose proof Hinv as (Hg & Hxy & Hc & Hp);
  assert (Hg0 : _grid_size self <> 0) by lia;
  destruct ev as [event|w h|cls| |]; cbn [handle];
  [ destruct (no_algorithm_selected self) eqn:Hsel;
    [ rewrite click_guard by assumption
    | destruct (selected_dispatches self Hsel) as [cls Hcls];
      destruct (_start_x self) as [start_x|] eqn:Hx;
      [ destruct (_debug_mode self) eqn:Hd;
        [ rewrite (click_second_debug event self start_x cls) by assumption;
          cbv zeta;
          destruct (get_points cls start_x (_start_y self)
                      (event_x event / _grid_size self)
                      (event_y event / _grid_size self)) as [|p points]
        | rewrite (click_second_direct event self start_x cls) by assumption ]
      | rewrite click_first by assumption ] ]
  | rewrite configure_spec by assumption
  | rewrite _set_line_algorithm_spec
  | rewrite _toggle_debug_mode_spec
  | destruct (run_after_cases self)
      as [[Hq ->]
         |[(ms & points & index & rest & Hq & Hidx & ->)
          |(ms & points & index & rest & p & Hq & Hidx & ->)]] ];
  cbn [state_of].

(** ** What holds in every state of a running application *)

Lemma handle_callbacks ev self :
  invariant self ->
  Forall callback_ok (after_queue self) ->
  Forall callback_ok (after_queue (state_of (handle get_points ev self))).
Proof.
  intros Hinv Hcb. handle_cases ev self Hinv; cbn; try assumption.
  - apply Forall_app. split; [assumption|].
    constructor; [|constructor]. cbn. split; [reflexivity|lia].
  - rewrite Hq in Hcb. now inversion Hcb.
  - rewrite Hq in Hcb. inversion Hcb as [|cb l Hcb1 Hcb2]; subst.
    apply Forall_app. split; [assumption|].
    constructor; [|constructor]. cbn.
    assert (index < List.length points)%nat
      by (apply nth_error_Some; congruence).
    split; [reflexivity|lia].
Qed.

(** X2.  In every state of a running application the grid size is 5, the two
    start coordinates are both set or both unset, the curve and parametric
    slots are empty, and every pending callback is due in 50 ms for an index
    between 1 and the length of its list. *)
Theorem reachable_states_invariant :
  forall self : DrawingApp,
    reachable get_points self ->
    _grid_size self = 5
    /\ (_start_x self = None <-> _start_y self = None)
    /\ _current_curve_algorithm self = None
    /\ _current_parametric_algorithm self = None
    /\ Forall callback_ok (after_queue self).
Proof.
  intros self Hreach.
  assert (H : invariant self /\ Forall callback_ok (after_queue self)).
  { induction Hreach as [w h|ev self Hreach [IHinv IHcb]].
    - destruct (__init___spec w h) as (s & Hs & Hinv). rewrite Hs.
      split; [exact Hinv|].
      unfold __init__ in Hs. rewrite _draw_grid_spec in Hs by (cbn; lia).
      injection Hs as <-. constructor.
    - split; [|now apply handle_callbacks].
      destruct (handle_spec ev self IHinv) as (s & Hs & Hinv). now rewrite Hs. }
  destruct H as [(Hg & Hxy & Hc & Hp) Hcb]. repeat split; try assumption.
  - apply Hxy.
  - apply Hxy.
Qed.

(** X1.  The constructor returns, and in every state of a running
    application every handler returns: no click, resize, menu command or
    callback ends in an exception. *)
Theorem handlers_never_raise :
  (forall w h : Z, exists self, __init__ w h = Ok tt self)
  /\ forall (ev : TkEvent) (self : DrawingApp),
       reachable get_points self ->
       exists self', handle get_points ev self = Ok tt self'.
Proof.
  split.
  - intros w h. destruct (__init___spec w h) as (s & Hs & _). now exists s.
  - intros ev self Hreach.
    destruct (handle_spec ev self (reachable_invariant self Hreach))
      as (s & Hs & _).
    now exists s.
Qed.

(** ** The grid *)

Lemma drawing_app (c c' : list Item) self :
  drawing (set_canvas (c ++ c') self)
  = drawing (set_canvas c self) ++ drawing (set_canvas c' self).
Proof. unfold drawing. cbn [_canvas set_canvas]. apply filter_app. Qed.

Lemma filter_idem {A} (f : A -> bool) (l : list A) :
  filter f (filter f l) = filter f l.
Proof. apply forallb_filter_id, forallb_filter. Qed.

Lemma filter_grid_lines {A} (f : A -> Item) (l : list A) :
  (forall a, has_tag "grid" (f a) = true) ->
  filter (fun i => negb (has_tag "grid" i)) (map f l) = [].
Proof.
  intros Hf. induction l as [|a l IH]; [reflexivity|].
  cbn [map filter]. now rewrite Hf.
Qed.

(** The grid lines leave the drawing as it is. *)
Lemma drawing_grid_canvas self :
  filter (fun i => negb (has_tag "grid" i)) (grid_canvas self) = drawing self.
Proof.
  unfold grid_canvas, drawing.
  rewrite !filter_app, filter_idem, !filter_grid_lines by reflexivity.
  now rewrite !app_nil_r.
Qed.

Lemma grid_canvas_set_canvas c self :
  grid_canvas (set_canvas c self)
  = filter (fun i => negb (has_tag "grid" i)) c
    ++ map (fun x => line x 0 x (winfo_height self) "lightgray" "grid")
           (range_list 0 (winfo_width self) (_grid_size self))
    ++ map (fun y => line 0 y (winfo_width self) y "lightgray" "grid")
           (range_list 0 (winfo_height self) (_grid_size self)).
Proof. reflexivity. Qed.

(** [range(0, stop, step)] for a positive step: the multiples of the step
    from 0 up to [stop], excluded. *)
Lemma range_list_In stop step x :
  0 < step ->
  In x (range_list 0 stop step) <-> 0 <= x < stop /\ x mod step = 0.
Proof.
  intros Hstep. unfold range_list.
  destruct (Z.ltb_spec 0 step) as [_|]; [|lia].
  rewrite in_map_iff. split.
  - intros (i & <- & Hin). apply in_seq in Hin.
    assert (Hi : Z.of_nat i < (stop - 0 + step - 1) / step) by lia.
    split; [|rewrite Z.add_0_l; apply Z_mod_mult].
    assert (Hle : Z.of_nat i + 1 <= (stop - 0 + step - 1) / step) by lia.
    pose proof (Z.mul_div_le (stop - 0 + step - 1) step Hstep) as Hd.
    nia.
  - intros [Hx Hmod].
    apply Z.div_exact in Hmod; [|lia].
    exists (Z.to_nat (x / step)).
    assert (Hq : 0 <= x / step) by (apply Z.div_pos; lia).
    rewrite Z2Nat.id by exact Hq.
    split; [lia|]. apply in_seq.
    assert (Hlt : x / step < (stop - 0 + step - 1) / step).
    { apply Z.div_lt_upper_bound; [lia|].
      pose proof (Z.mul_succ_div_gt (stop - 0 + step - 1) step Hstep).
      nia. }
    lia.
Qed.

(** X3.  With a grid size other than zero [_draw_grid] returns; it only
    changes the canvas; the marks and cells drawn so far stay, in their
    order; and drawing the grid again changes nothing more: the old grid
    lines are removed before the new ones are created, so resizing does not
    pile up lines. *)
Theorem draw_grid_keeps_drawing :
  forall self : DrawingApp,
    _grid_size self <> 0 ->
    exists self',
      _draw_grid self = Ok tt self'
      /\ self' = set_canvas (_canvas self') self
      /\ drawing self' = drawing self
      /\ _draw_grid self' = Ok tt self'.
Proof.
  intros self Hg. exists (set_canvas (grid_canvas self) self).
  split; [now apply _draw_grid_spec|].
  split; [reflexivity|].
  split; [apply drawing_grid_canvas|].
  rewrite _draw_grid_spec by exact Hg.
  rewrite grid_canvas_set_canvas, drawing_grid_canvas. reflexivity.
Qed.

(** X4.  After [_draw_grid] with a positive grid size, the canvas holds a
    vertical grid line at [x], from top to bottom, exactly when [x] is a
    multiple of the grid size with [0 <= x < width], and a horizontal grid
    line at [y], from left to right, exactly when [y] is a multiple of the
    grid size with [0 <= y < height]. *)
Theorem grid_line_positions :
  forall (self : DrawingApp) (x y : Z),
    0 < _grid_size self ->
    let after := state_of (_draw_grid self) in
    (In (line x 0 x (winfo_height self) "lightgray" "grid") (_canvas after)
     <-> 0 <= x < winfo_width self /\ x mod _grid_size self = 0)
    /\ (In (line 0 y (winfo_width self) y "lightgray" "grid") (_canvas after)
        <-> 0 <= y < winfo_height self /\ y mod _grid_size self = 0).
Proof.
  intros self x y Hg after. unfold after.
  rewrite _draw_grid_spec by lia. cbn [state_of _canvas set_canvas].
  unfold grid_canvas. rewrite !in_app_iff, !filter_In, !in_map_iff.
  split.
  - rewrite <- (range_list_In (winfo_width self) (_grid_size self) x Hg).
    split.
    + intros [[_ Hf]|[(x' & Heq & Hin)|(y' & Heq & Hin)]].
      * discriminate Hf.
      * injection Heq as ->. exact Hin.
      * injection Heq as Hx Hy Hw Hh. subst.
        apply range_list_In in Hin; [|exact Hg]. lia.
    + intros Hin. right. left. now exists x.
  - rewrite <- (range_list_In (winfo_height self) (_grid_size self) y Hg).
    split.
    + intros [[_ Hf]|[(x' & Heq & Hin)|(y' & Heq & Hin)]].
      * discriminate Hf.
      * injection Heq as Hx Hy Hw Hh. subst.
        apply range_list_In in Hin; [|exact Hg]. lia.
      * injection Heq as ->. exact Hin.
    + intros Hin. right. right. now exists y.
Qed.

(** X5.  With a grid size other than zero [_clear_canvas] returns and only
    changes the canvas: nothing of the drawing is left, every item is a grid
    line, and the canvas is the one [_draw_grid] makes of an empty canvas. *)
Theorem clear_canvas_leaves_grid :
  forall self : DrawingApp,
    _grid_size self <> 0 ->
    exists self',
      _clear_canvas self = Ok tt self'
      /\ self' = set_canvas (_canvas self') self
      /\ drawing self' = []
      /\ Forall (fun i => has_tag "grid" i = true) (_canvas self')
      /\ _canvas self' = _canvas (state_of (_draw_grid (set_canvas [] self))).
Proof.
  intros self Hg.
  assert (Hrun : _clear_canvas self
                 = Ok tt (set_canvas (grid_canvas (set_canvas [] self)) self)).
  { unfold _clear_canvas, delete. unfold bind at 1. unfold bind at 1.
    unfold get at 1. cbn [String.eqb Ascii.eqb Bool.eqb]. unfold modify at 1.
    now rewrite _draw_grid_spec by exact Hg. }
  eexists. split; [exact Hrun|].
  split; [reflexivity|].
  split; [apply (drawing_grid_canvas (set_canvas [] self))|].
  split.
  - cbn [_canvas set_canvas]. rewrite grid_canvas_set_canvas.
    cbn [filter app]. apply Forall_app. split; apply Forall_map, Forall_forall;
      reflexivity.
  - rewrite _draw_grid_spec by exact Hg. reflexivity.
Qed.

(** ** Clicks and cells *)

(** X12.  [_set_line_algorithm] with a label other than the three of the
    menu matches no case: the line-algorithm slot has been cleared and
    stays empty, the title and everything else are as before; with the other
    two slots empty, the next click meets the guard. *)
Theorem set_line_algorithm_unknown_label :
  forall (algorithm : string) (self : DrawingApp),
    algorithm <> "DDA"%string ->
    algorithm <> "Bresenham"%string ->
    algorithm <> "Wu"%string ->
    _set_line_algorithm algorithm self
    = Ok tt (set_current_line_algorithm None self)
    /\ (_current_curve_algorithm self = None ->
        _current_parametric_algorithm self = None ->
        no_algorithm_selected (set_current_line_algorithm None self) = true).
Proof.
  intros algorithm self H1 H2 H3.
  apply String.eqb_neq in H1, H2, H3. split.
  - unfold _set_line_algorithm, _uncheck_all_algorithms, bind, modify.
    now rewrite H1, H2, H3.
  - intros Hc Hp. unfold no_algorithm_selected, any.
    cbn [_current_line_algorithm _current_curve_algorithm
         _current_parametric_algorithm set_current_line_algorithm existsb].
    now rewrite Hc, Hp.
Qed.

(** ** Sequences of events *)

Lemma mainloop_cons ev evs self :
  mainloop get_points (ev :: evs) self
  = mainloop get_points evs (state_of (handle get_points ev self)).
Proof. reflexivity. Qed.

Lemma mainloop_app evs evs' self :
  mainloop get_points (evs ++ evs') self
  = mainloop get_points evs' (mainloop get_points evs self).
Proof. apply fold_left_app. Qed.

Lemma mainloop_reachable evs : forall self,
  reachable get_points self -> reachable get_points (mainloop get_points evs self).
Proof.
  induction evs as [|ev evs IH]; intros self Hreach; [exact Hreach|].
  cbn [mainloop fold_left]. apply IH. now constructor.
Qed.

(** The states of a running application are the states [main] goes
    through. *)
Lemma reachable_main self :
  reachable get_points self <-> exists w h evs, self = main get_points w h evs.
Proof.
  split.
  - induction 1 as [w h|ev self _ (w & h & evs & ->)].
    + now exists w, h, [].
    + exists w, h, (evs ++ [ev]). unfold main. now rewrite mainloop_app.
  - intros (w & h & evs & ->). apply mainloop_reachable. constructor.
Qed.

Lemma selected_not_guarded self :
  _current_line_algorithm self <> None -> no_algorithm_selected self = false.
Proof.
  unfold no_algorithm_selected, any. cbn [existsb].
  destruct (_current_line_algorithm self); [reflexivity|congruence].
Qed.

Lemma handle_keeps_selection ev self :
  invariant self ->
  _current_line_algorithm self <> None ->
  _current_line_algorithm (state_of (handle get_points ev self)) <> None
  /\ messagebox (state_of (handle get_points ev self)) = messagebox self.
Proof.
  intros Hinv Hsome. pose proof (selected_not_guarded self Hsome) as Hng.
  handle_cases ev self Hinv; cbn; try (split; [assumption|reflexivity]).
  - congruence.
  - split; [discriminate|reflexivity].
Qed.

(** X11.  Once a line algorithm is selected in a running application, no
    sequence of clicks, resizes, menu commands and callbacks leaves the slot
    empty again, and the warning is not shown any more. *)
Theorem selection_persists :
  forall (evs : list TkEvent) (self : DrawingApp),
    reachable get_points self ->
    _current_line_algorithm self <> None ->
    _current_line_algorithm (mainloop get_points evs self) <> None
    /\ messagebox (mainloop get_points evs self) = messagebox self.
Proof.
  induction evs as [|ev evs IH]; intros self Hreach Hsome.
  - split; [exact Hsome|reflexivity].
  - cbn [mainloop fold_left].
    destruct (handle_keeps_selection ev self
                (reachable_invariant self Hreach) Hsome) as [Hs Hm].
    destruct (IH (state_of (handle get_points ev self))) as [Hs' Hm'].
    + now constructor.
    + exact Hs.
    + split; [exact Hs'|]. unfold mainloop in Hm'. now rewrite Hm', Hm.
Qed.

Lemma handle_keeps_drawing ev self :
  invariant self ->
  exists added,
    drawing (state_of (handle get_points ev self)) = drawing self ++ added.
Proof.
  intros Hinv.
  handle_cases ev self Hinv; unfold drawing; cbn [_canvas set_canvas
    set_messagebox set_start_x set_start_y set_after_queue set_stdout
    set_title set_current_line_algorithm set_debug_mode set_winfo];
    rewrite ?filter_app; try (eexists; reflexivity);
    try (exists []; now rewrite app_nil_r).
  exists []. rewrite app_nil_r. apply (drawing_grid_canvas (set_winfo w h self)).
Qed.

(** X13.  No sequence of events of a running application removes or
    reorders what has been drawn: the marks and cells on the canvas before
    are still there after, followed by the new ones. *)
Theorem drawing_only_grows :
  forall (evs : list TkEvent) (self : DrawingApp),
    reachable get_points self ->
    exists added,
      drawing (mainloop get_points evs self) = drawing self ++ added.
Proof.
  induction evs as [|ev evs IH]; intros self Hreach.
  - exists []. now rewrite app_nil_r.
  - cbn [mainloop fold_left].
    destruct (handle_keeps_drawing ev self (reachable_invariant self Hreach))
      as [added1 H1].
    destruct (IH (state_of (handle get_points ev self))) as [added2 H2];
      [now constructor|].
    exists (added1 ++ added2). unfold mainloop in H2.
    now rewrite H2, H1, app_assoc.
Qed.

(** ** A pair of clicks *)

Lemma line_selected_dispatch self cls :
  _current_line_algorithm self = Some cls ->
  no_algorithm_selected self = false /\ select_algorithm self = Some cls.
Proof.
  intros H. unfold no_algorithm_selected, any, select_algorithm.
  cbn [existsb]. now rewrite H.
Qed.

(** The state two clicks leave. *)
Lemma click_pair_state e1 e2 cls self :
  reachable get_points self ->
  _current_line_algorithm self = Some cls ->
  _debug_mode self = false ->
  _start_x self = None ->
  mainloop get_points [Button1 e1; Button1 e2] self
  = set_canvas
      (_canvas self ++ [click_mark e1; click_mark e2] ++
       map (cell_rectangle 5)
           (get_points cls (event_x e1 / 5) (Some (event_y e1 / 5))
                       (event_x e2 / 5) (event_y e2 / 5)))
      self.
Proof.
  intros Hreach Hcls Hd Hx.
  destruct (reachable_invariant self Hreach) as (Hg & Hxy & _).
  destruct (line_selected_dispatch self cls Hcls) as [Hsel Hdisp].
  assert (Hg0 : _grid_size self <> 0) by lia.
  assert (Hy : _start_y self = None) by now apply Hxy.
  cbn [mainloop fold_left handle].
  rewrite (click_first e1 self Hsel Hg0 Hx). cbn [state_of].
  rewrite (click_second_direct e2 _ (event_x e1 / _grid_size self) cls);
    try assumption; try reflexivity.
  cbn [state_of]. rewrite Hg.
  destruct self. cbn in *. subst.
  now rewrite <- app_assoc.
Qed.

(** X6.  In a running application with a line algorithm selected, debug
    mode off and no start pending, two clicks draw one segment: the first
    click is the start and the second the end, both divided by 5 and rounded
    down; the canvas gains the two red marks and then the rectangles of the
    points the selected class returns for them; nothing else changes, so the
    next click starts a new segment. *)
Theorem click_pair_draws_segment :
  forall (e1 e2 : Event) (cls : AlgorithmClass) (self : DrawingApp),
    reachable get_points self ->
    _current_line_algorithm self = Some cls ->
    _debug_mode self = false ->
    _start_x self = None ->
    mainloop get_points [Button1 e1; Button1 e2] self
    = set_canvas
        (_canvas self ++ [click_mark e1; click_mark e2] ++
         map (cell_rectangle 5)
             (get_points cls (event_x e1 / 5) (Some (event_y e1 / 5))
                         (event_x e2 / 5) (event_y e2 / 5)))
        self.
Proof.
  intros e1 e2 cls self. apply click_pair_state.
Qed.

(** X8.  In a running application with a line algorithm selected, debug
    mode off and no start pending, after two clicks: whenever the selected
    class returns, for the clicked endpoints, the point of the grid cell of a
    pixel [(px // 5, py // 5)], the canvas holds the rectangle
    [_draw_points] created for it, outlined in black and filled with the
    point's colour, and that rectangle is the 5 by 5 square that holds the
    pixel.  So a class that returns the endpoint cells covers the two
    clicked pixels, also at negative coordinates. *)
Theorem click_lies_in_its_cell :
  forall (e1 e2 : Event) (cls : AlgorithmClass) (px py : Z) (color : string)
         (self : DrawingApp),
    reachable get_points self ->
    _current_line_algorithm self = Some cls ->
    _debug_mode self = false ->
    _start_x self = None ->
    In (px / 5, py / 5, color)
       (get_points cls (event_x e1 / 5) (Some (event_y e1 / 5))
                   (event_x e2 / 5) (event_y e2 / 5)) ->
    exists x0 y0 : Z,
      In (rectangle x0 y0 (x0 + 5) (y0 + 5) "black" color)
         (_canvas (mainloop get_points [Button1 e1; Button1 e2] self))
      /\ x0 <= px < x0 + 5
      /\ y0 <= py < y0 + 5.
Proof.
  intros e1 e2 cls px py color self Hreach Hcls Hd Hx Hin.
  rewrite (click_pair_state e1 e2 cls self Hreach Hcls Hd Hx).
  cbn [_canvas set_canvas].
  exists (px / 5 * 5), (py / 5 * 5). split.
  - apply in_or_app. right. apply in_or_app. right.
    apply in_map_iff. exists (px / 5, py / 5, color).
    split; [|exact Hin]. cbn [cell_rectangle]. f_equal; lia.
  - pose proof (Z.mul_div_le px 5). pose proof (Z.mul_succ_div_gt px 5).
    pose proof (Z.mul_div_le py 5). pose proof (Z.mul_succ_div_gt py 5).
    lia.
Qed.

(** X7.  The algorithm is read at the second click: when another line
    algorithm is chosen from the menu between the two clicks, the start of
    the first click is kept and the segment is drawn by the class chosen
    last. *)
Theorem algorithm_switch_between_clicks :
  forall (e1 e2 : Event) (cls cls' : AlgorithmClass) (self : DrawingApp),
    reachable get_points self ->
    _current_line_algorithm self = Some cls ->
    _debug_mode self = false ->
    _start_x self = None ->
    mainloop get_points [Button1 e1; LineMenu cls'; Button1 e2] self
    = set_title (label cls')
        (set_current_line_algorithm (Some cls')
           (set_canvas
              (_canvas self ++ [click_mark e1; click_mark e2] ++
               map (cell_rectangle 5)
                   (get_points cls' (event_x e1 / 5) (Some (event_y e1 / 5))
                               (event_x e2 / 5) (event_y e2 / 5)))
              self)).
Proof.
  intros e1 e2 cls cls' self Hreach Hcls Hd Hx.
  destruct (reachable_invariant self Hreach) as (Hg & Hxy & _).
  destruct (line_selected_dispatch self cls Hcls) as [Hsel Hdisp].
  assert (Hg0 : _grid_size self <> 0) by lia.
  assert (Hy : _start_y self = None) by now apply Hxy.
  cbn [mainloop fold_left handle].
  rewrite (click_first e1 self Hsel Hg0 Hx). cbn [state_of].
  rewrite _set_line_algorithm_spec. cbn [state_of].
  rewrite (click_second_direct e2 _ (event_x e1 / _grid_size self) cls');
    try assumption; try reflexivity.
  cbn [state_of]. rewrite Hg.
  destruct self. cbn in *. subst.
  now rewrite <- app_assoc.
Qed.

(** ** The pending callbacks *)

Lemma run_pending_S fuel self :
  after_queue self <> [] ->
  run_pending (S fuel) self = (run_after ;; run_pending fuel) self.
Proof.
  intros H. cbn [run_pending]. unfold bind at 1. unfold get at 1.
  destruct (after_queue self); [congruence|reflexivity].
Qed.

Lemma pending_calls_empty self :
  pending_calls self = 0%nat -> after_queue self = [].
Proof.
  unfold pending_calls. destruct (after_queue self); [reflexivity|].
  cbn [map]. change (list_sum (?a :: ?l)) with (a + list_sum l)%nat. lia.
Qed.

Lemma pending_done self ms points index rest :
  after_queue self = (ms, (points, index)) :: rest ->
  (List.length points <= index)%nat ->
  pending_calls self = S (pending_calls (set_after_queue rest self))
  /\ pending_cells self = pending_cells (set_after_queue rest self).
Proof.
  intros Hq Hidx. unfold pending_calls, pending_cells. rewrite Hq.
  cbn [after_queue set_after_queue map fst snd].
  change (list_sum (?a :: ?l)) with (a + list_sum l)%nat.
  split; lia.
Qed.

Lemma pending_step self ms points index rest c o :
  after_queue self = (ms, (points, index)) :: rest ->
  (index < List.length points)%nat ->
  let next :=
    set_after_queue (rest ++ [(50, (points, (index + 1)%nat))])
      (set_stdout o (set_canvas c self)) in
  pending_calls self = S (pending_calls next)
  /\ pending_cells self = S (pending_cells next).
Proof.
  intros Hq Hidx next. unfold pending_calls, pending_cells, next. rewrite Hq.
  cbn [after_queue set_after_queue map fst snd].
  rewrite !map_app, !list_sum_app. cbn [map fst snd].
  change (list_sum (?a :: ?l)) with (a + list_sum l)%nat.
  change (list_sum []) with 0%nat.
  split; lia.
Qed.

(** However many animations are pending, and wherever they stand, they
    come to an end. *)
Lemma run_pending_drains fuel : forall self,
  (pending_calls self <= fuel)%nat ->
  exists self' added,
    run_pending fuel self = Ok tt self'
    /\ after_queue self' = []
    /\ _canvas self' = _canvas self ++ added
    /\ List.length added = pending_cells self
    /\ Forall (fun i => exists x0 y0 x1 y1 fill,
                 i = rectangle x0 y0 x1 y1 "black" fill) added.
Proof.
  induction fuel as [|fuel IH]; intros self Hfuel.
  - assert (Hq : after_queue self = []) by (apply pending_calls_empty; lia).
    exists self, []. cbn [run_pending ret].
    unfold pending_cells. rewrite Hq, app_nil_r. repeat split. constructor.
  - destruct (run_after_cases self)
      as [[Hq Hrun]
         |[(ms & points & index & rest & Hq & Hidx & Hrun)
          |(ms & points & index & rest & p & Hq & Hidx & Hrun)]].
    + exists self, []. rewrite run_pending_empty by exact Hq.
      unfold pending_cells. rewrite Hq, app_nil_r. repeat split. constructor.
    + destruct (pending_done self ms points index rest Hq Hidx) as [Hcalls Hcells].
      rewrite run_pending_S by congruence. unfold bind. rewrite Hrun.
      destruct (IH (set_after_queue rest self))
        as (s' & added & H1 & H2 & H3 & H4 & H5); [lia|].
      exists s', added. split; [exact H1|]. split; [exact H2|].
      split; [exact H3|]. split; [lia|exact H5].
    + assert (Hlt : (index < List.length points)%nat)
        by (apply nth_error_Some; congruence).
      destruct (pending_step self ms points index rest
                  (_canvas self ++ [cell_rectangle (_grid_size self) p])
                  (stdout self ++ [point_line p]) Hq Hlt) as [Hcalls Hcells].
      rewrite run_pending_S by congruence. unfold bind. rewrite Hrun.
      match goal with
      | |- context [run_pending fuel ?s] =>
          destruct (IH s) as (s' & added & H1 & H2 & H3 & H4 & H5); [lia|]
      end.
      exists s', (cell_rectangle (_grid_size self) p :: added).
      split; [exact H1|]. split; [exact H2|].
      split; [rewrite H3; cbn [_canvas set_after_queue set_stdout set_canvas];
              now rewrite <- app_assoc|].
      split; [cbn [List.length]; lia|].
      constructor; [|exact H5].
      destruct p as [[x y] color]. cbn [cell_rectangle]. now eexists _, _, _, _, _.
Qed.

(** X9.  From any state, running the pending callbacks one after the other
    comes to an end: after one call per cell still to paint and one more per
    callback, no callback is left, none has raised, and the canvas has
    gained exactly one black-outlined rectangle per cell that was still to
    paint, nothing else. *)
Theorem pending_callbacks_drain :
  forall self : DrawingApp,
    exists self' added,
      run_pending (pending_calls self) self = Ok tt self'
      /\ after_queue self' = []
      /\ _canvas self' = _canvas self ++ added
      /\ List.length added = pending_cells self
      /\ Forall (fun i => exists x0 y0 x1 y1 fill,
                   i = rectangle x0 y0 x1 y1 "black" fill) added.
Proof.
  intros self. apply run_pending_drains. lia.
Qed.

(** The callbacks that come due one after the other are [run_pending]. *)
Lemma mainloop_AfterDue n : forall self,
  mainloop get_points (repeat AfterDue n) self = state_of (run_pending n self).
Proof.
  induction n as [|n IH]; intros self; [reflexivity|].
  cbn [repeat mainloop fold_left handle].
  change (fold_left (fun s ev => state_of (handle get_points ev s))
                    (repeat AfterDue n) (state_of (run_after self)))
    with (mainloop get_points (repeat AfterDue n) (state_of (run_after self))).
  rewrite IH.
  destruct (run_after_cases self)
    as [[Hq Hrun]
       |[(ms & points & index & rest & Hq & Hidx & Hrun)
        |(ms & points & index & rest & p & Hq & Hidx & Hrun)]].
  - rewrite Hrun. cbn [state_of]. now rewrite !run_pending_empty.
  - rewrite run_pending_S by congruence. unfold bind. now rewrite Hrun.
  - rewrite run_pending_S by congruence. unfold bind. now rewrite Hrun.
Qed.

(** X10.  In a running application in debug mode with no callback pending,
    the second click of a pair followed by as many callbacks as the class
    returns points ends with the canvas the same click gives with debug mode
    off: the animation paints the same rectangles in the same order.  The
    two end states differ in the debug flag and in the lines printed, one
    per point, and in nothing else; no callback is left pending. *)
Theorem debug_click_then_callbacks :
  forall (event : Event) (start_x : Z) (cls : AlgorithmClass) (n : nat)
         (self : DrawingApp),
    reachable get_points self ->
    _debug_mode self = true ->
    after_queue self = [] ->
    _current_line_algorithm self = Some cls ->
    _start_x self = Some start_x ->
    let points :=
      get_points cls start_x (_start_y self)
                 (event_x event / 5) (event_y event / 5) in
    (List.length points <= n)%nat ->
    let debug := mainloop get_points (Button1 event :: repeat AfterDue n) self in
    let direct := mainloop get_points [Button1 event] (set_debug_mode false self) in
    _canvas debug = _canvas direct
    /\ after_queue debug = []
    /\ debug = set_debug_mode true
                 (set_stdout (stdout self ++ map point_line points) direct).
Proof.
  intros event start_x cls n self Hreach Hd Hq Hcls Hx points Hn debug direct.
  destruct (reachable_invariant self Hreach) as (Hg & _).
  destruct (line_selected_dispatch self cls Hcls) as [Hsel Hdisp].
  assert (Hg0 : _grid_size self <> 0) by lia.
  assert (Hdirect : direct
    = set_start_y None
        (set_start_x None
           (set_canvas
              (_canvas self ++ click_mark event :: map (cell_rectangle 5) points)
              (set_debug_mode false self)))).
  { unfold direct. cbn [mainloop fold_left handle].
    rewrite (click_second_direct event _ start_x cls);
      try assumption; try reflexivity.
    cbn [state_of _grid_size _start_y _canvas set_debug_mode].
    now rewrite Hg. }
  assert (Hdebug : debug
    = set_start_y None
        (set_start_x None
           (set_stdout (stdout self ++ map point_line points)
              (set_canvas
                 (_canvas self ++ click_mark event
                  :: map (cell_rectangle 5) points)
                 self)))).
  { unfold debug.
    change (Button1 event :: repeat AfterDue n)
      with ([Button1 event] ++ repeat AfterDue n).
    rewrite mainloop_app, mainloop_AfterDue.
    cbn [mainloop fold_left handle].
    rewrite (click_second_debug event self start_x cls) by assumption.
    cbv zeta. rewrite Hg. fold points. cbn [state_of].
    destruct points as [|p points'] eqn:Hpts.
    - rewrite run_pending_empty by (cbn; exact Hq).
      cbn [state_of map]. destruct self. cbn in *. subst.
      now rewrite !app_nil_r.
    - destruct n as [|n]; [cbn in Hn; lia|].
      erewrite run_pending_cons
        by (cbn [after_queue set_after_queue set_start_x set_start_y];
            rewrite Hq; reflexivity).
      rewrite (draw_with_latency_chain points' [p]);
        [|reflexivity|cbn in Hn; lia].
      cbn [state_of]. destruct self. cbn in *. subst.
      now rewrite <- !app_assoc. }
  rewrite Hdebug, Hdirect.
  split; [reflexivity|]. split; [exact Hq|].
  destruct self. cbn in *. now subst.
Qed.

(** ** Before the first selection, and the debug switch *)

Lemma none_selected_guarded self :
  _current_line_algorithm self = None ->
  _current_curve_algorithm self = None ->
  _current_parametric_algorithm self = None ->
  no_algorithm_selected self = true.
Proof.
  intros Hl Hc Hp. unfold no_algorithm_selected, any. cbn [existsb].
  now rewrite Hl, Hc, Hp.
Qed.

Lemma mainloop_without_selection evs : forall self,
  invariant self ->
  _current_line_algorithm self = None ->
  after_queue self = [] ->
  (forall cls, ~ In (LineMenu cls) evs) ->
  let self' := mainloop get_points evs self in
  _current_line_algorithm self' = None
  /\ after_queue self' = []
  /\ drawing self' = drawing self
  /\ (_start_x self', _start_y self') = (_start_x self, _start_y self)
  /\ messagebox self'
     = messagebox self
       ++ repeat ("warning", "Warning", "No algorithm selected.")%string
                 (clicks evs).
Proof.
  induction evs as [|ev evs IH]; intros self Hinv Hl Hq Hno.
  - cbn. now rewrite app_nil_r.
  - assert (Hno' : forall cls, ~ In (LineMenu cls) evs)
      by (intros cls Hin; apply (Hno cls); now right).
    pose proof Hinv as (Hg & Hxy & Hc & Hp).
    assert (Hg0 : _grid_size self <> 0) by lia.
    pose proof (none_selected_guarded self Hl Hc Hp) as Hguard.
    cbn zeta. cbn [mainloop fold_left].
    change (fold_left (fun s ev => state_of (handle get_points ev s)) evs)
      with (mainloop get_points evs).
    destruct (handle_spec ev self Hinv) as (s1 & Hs1 & Hinv1).
    destruct ev as [event|w h|cls| |].
    + cbn [handle] in *. rewrite click_guard in * by exact Hguard.
      injection Hs1 as <-. cbn [state_of].
      destruct (IH _ Hinv1 Hl Hq Hno') as (H1 & H2 & H3 & H4 & H5).
      repeat split; try assumption.
      rewrite H5. cbn [messagebox set_messagebox clicks filter is_click
                       List.length repeat].
      now rewrite <- app_assoc.
    + cbn [handle] in *. rewrite configure_spec in * by exact Hg0.
      injection Hs1 as <-. cbn [state_of].
      destruct (IH _ Hinv1 Hl Hq Hno') as (H1 & H2 & H3 & H4 & H5).
      repeat split; try assumption.
      rewrite H3. apply (drawing_grid_canvas (set_winfo w h self)).
    + exfalso. apply (Hno cls). now left.
    + cbn [handle] in *. rewrite _toggle_debug_mode_spec in *.
      injection Hs1 as <-. cbn [state_of].
      destruct (IH _ Hinv1 Hl Hq Hno') as (H1 & H2 & H3 & H4 & H5).
      repeat split; assumption.
    + cbn [handle] in *. rewrite run_after_empty in * by exact Hq.
      injection Hs1 as <-. cbn [state_of].
      destruct (IH _ Hinv1 Hl Hq Hno') as (H1 & H2 & H3 & H4 & H5).
      repeat split; assumption.
Qed.

(** X15.  Until a command of the Line menu is chosen, the application draws
    nothing: whatever the clicks, resizes, debug switches and callbacks,
    no algorithm is selected, the canvas holds grid lines only, no start is
    recorded, no callback is pending, and each click has shown the warning
    once. *)
Theorem nothing_drawn_before_selection :
  forall (w h : Z) (evs : list TkEvent),
    (forall cls, ~ In (LineMenu cls) evs) ->
    let self := main get_points w h evs in
    _current_line_algorithm self = None
    /\ drawing self = []
    /\ (_start_x self, _start_y self) = (None, None)
    /\ after_queue self = []
    /\ messagebox self
       = repeat ("warning", "Warning", "No algorithm selected.")%string
                (clicks evs).
Proof.
  intros w h evs Hno. unfold main.
  destruct (__init___spec w h) as (s0 & Hs0 & Hinv0).
  assert (Hform : state_of (__init__ w h) = s0) by now rewrite Hs0.
  rewrite Hform.
  assert (Hfresh : _current_line_algorithm s0 = None
                   /\ after_queue s0 = []
                   /\ drawing s0 = []
                   /\ (_start_x s0, _start_y s0) = (None, None)
                   /\ messagebox s0 = []).
  { rewrite <- Hform. unfold __init__.
    rewrite _draw_grid_spec by (cbn; lia). cbn [state_of].
    repeat split. unfold drawing. cbn [_canvas set_canvas].
    now rewrite drawing_grid_canvas. }
  destruct Hfresh as (F1 & F2 & F3 & F4 & F5).
  destruct (mainloop_without_selection evs s0 Hinv0 F1 F2 Hno)
    as (H1 & H2 & H3 & H4 & H5).
  cbv zeta. split; [exact H1|].
  split; [now rewrite H3|].
  split; [now rewrite H4|].
  split; [exact H2|].
  now rewrite H5, F5.
Qed.

Lemma run_after_debug_mode b self :
  state_of (run_after (set_debug_mode b self))
  = set_debug_mode b (state_of (run_after self)).
Proof.
  destruct (run_after_cases self)
    as [[Hq Hrun]
       |[(ms & points & index & rest & Hq & Hidx & Hrun)
        |(ms & points & index & rest & p & Hq & Hidx & Hrun)]];
    rewrite Hrun.
  - now rewrite run_after_empty.
  - now rewrite (run_after_done _ ms points index rest).
  - now rewrite (run_after_step _ ms points index rest p).
Qed.

(** X14.  The Debug switch does not touch a running animation: switching
    before the next [n] callbacks come due or after them ends in the same
    state, so the cells still to paint are painted either way. *)
Theorem debug_switch_keeps_animation :
  forall (n : nat) (self : DrawingApp),
    mainloop get_points (DebugMenu :: repeat AfterDue n) self
    = mainloop get_points (repeat AfterDue n ++ [DebugMenu]) self.
Proof.
  induction n as [|n IH]; intros self; [reflexivity|].
  cbn [repeat app].
  rewrite (mainloop_cons AfterDue), <- IH, !mainloop_cons.
  f_equal. cbn [handle]. rewrite !_toggle_debug_mode_spec. cbn [state_of].
  rewrite run_after_debug_mode. f_equal. f_equal.
  destruct (run_after_cases self)
    as [[Hq Hrun]
       |[(ms & points & index & rest & Hq & Hidx & Hrun)
        |(ms & points & index & rest & p & Hq & Hidx & Hrun)]];
    now rewrite Hrun.
Qed.

End WithAlgorithms.













(** ** The theorems at concrete inputs *)

(** The application as constructed with an 800 by 600 canvas, and after the
    command DDA of the Line menu. *)
Lemma click_without_algorithm_witness :
  let self := state_of (__init__ 800 600) in
  let event := {| event_x := 13; event_y := 27 |} in
  (_current_line_algorithm self = None
   /\ _current_curve_algorithm self = None
   /\ _current_parametric_algorithm self = None)
  /\ exists self',
       _on_canvas_click endpoints_only event self = Ok tt self'
       /\ _start_x self' = _start_x self
       /\ _start_y self' = _start_y self
       /\ _canvas self' = _canvas self.
Proof.
  cbv zeta. split; [repeat split|].
  destruct (click_without_algorithm endpoints_only
              {| event_x := 13; event_y := 27 |}
              (state_of (__init__ 800 600)) eq_refl eq_refl eq_refl)
    as (self' & Hrun & _ & Hx & Hy & Hc).
  exists self'. repeat split; assumption.
Defined.

Lemma click_grid_coordinates_witness :
  let self :=
    state_of (handle endpoints_only (LineMenu DDA) (state_of (__init__ 800 600))) in
  let event := {| event_x := 13; event_y := 27 |} in
  reachable endpoints_only self
  /\ no_algorithm_selected self = false
  /\ _grid_size self = 5
  /\ exists self',
       _on_canvas_click endpoints_only event self = Ok tt self'
       /\ _grid_size self' = 5.
Proof.
  cbv zeta.
  assert (Hreach : reachable endpoints_only
            (state_of (handle endpoints_only (LineMenu DDA)
                         (state_of (__init__ 800 600)))))
    by (apply reachable_step, reachable_init).
  split; [exact Hreach|]. split; [reflexivity|].
  destruct (click_grid_coordinates endpoints_only
              {| event_x := 13; event_y := 27 |} _ Hreach eq_refl)
    as (Hg & self' & Hrun & Hg' & _).
  split; [exact Hg|]. exists self'. split; assumption.
Defined.

Lemma debug_drawing_same_rectangles_witness :
  let self := state_of (__init__ 800 600) in
  let points := [(0, 0, "black"%string); (1, 1, "gray"%string)] in
  after_queue self = []
  /\ (List.length points <= 2)%nat
  /\ exists debug direct : DrawingApp,
       (_draw_points_with_latency points 0 ;; run_pending 2) self = Ok tt debug
       /\ _draw_points points self = Ok tt direct
       /\ _canvas debug = _canvas direct
       /\ debug = set_stdout (stdout self ++ map point_line points) direct.
Proof.
  cbv zeta.
  assert (Hlen : (List.length [(0, 0, "black"%string); (1, 1, "gray"%string)]
                  <= 2)%nat) by (cbn; lia).
  split; [reflexivity|]. split; [exact Hlen|].
  destruct (debug_drawing_same_rectangles
              [(0, 0, "black"%string); (1, 1, "gray"%string)]
              (state_of (__init__ 800 600)) 2 eq_refl Hlen)
    as (debug & direct & H1 & H2 & _ & H4 & _ & _ & _ & H8).
  exists debug, direct. repeat split; assumption.
Defined.

Lemma dispatch_raise_unreachable_witness :
  let self :=
    state_of (handle endpoints_only (LineMenu Wu) (state_of (__init__ 800 600))) in
  let event := {| event_x := 13; event_y := 27 |} in
  any [ _current_line_algorithm self;
        _current_curve_algorithm self;
        _current_parametric_algorithm self ] = true
  /\ (exists cls, select_algorithm self = Some cls)
  /\ forall self', _on_canvas_click endpoints_only event self <> Raise TypeError self'.
Proof.
  cbv zeta. split; [reflexivity|].
  apply (dispatch_raise_unreachable endpoints_only
           {| event_x := 13; event_y := 27 |}
           (state_of (handle endpoints_only (LineMenu Wu)
                        (state_of (__init__ 800 600))))).
  reflexivity.
Defined.

(** The further properties at concrete inputs: an application constructed
    with a 20 by 10 canvas, then the command DDA, and clicks at (13, 27)
    and (41, 8). *)
Lemma handlers_never_raise_witness :
  let self := state_of (handle endpoints_only (LineMenu DDA) (state_of (__init__ 20 10))) in
  reachable endpoints_only self
  /\ exists self',
       handle endpoints_only (Button1 {| event_x := 13; event_y := 27 |}) self
       = Ok tt self'.
Proof.
  cbv zeta.
  assert (Hreach : reachable endpoints_only
            (state_of (handle endpoints_only (LineMenu DDA)
                         (state_of (__init__ 20 10)))))
    by (apply reachable_step, reachable_init).
  split; [exact Hreach|].
  exact (proj2 (handlers_never_raise endpoints_only) _ _ Hreach).
Defined.

Lemma reachable_states_invariant_witness :
  let self := state_of (handle endpoints_only (LineMenu DDA) (state_of (__init__ 20 10))) in
  reachable endpoints_only self
  /\ _grid_size self = 5
  /\ Forall callback_ok (after_queue self).
Proof.
  cbv zeta.
  assert (Hreach : reachable endpoints_only
            (state_of (handle endpoints_only (LineMenu DDA)
                         (state_of (__init__ 20 10)))))
    by (apply reachable_step, reachable_init).
  split; [exact Hreach|].
  destruct (reachable_states_invariant endpoints_only _ Hreach)
    as (Hg & _ & _ & _ & Hcb).
  split; assumption.
Defined.

Lemma draw_grid_keeps_drawing_witness :
  let self := state_of (__init__ 20 10) in
  _grid_size self <> 0
  /\ exists self',
       _draw_grid self = Ok tt self'
       /\ drawing self' = drawing self
       /\ _draw_grid self' = Ok tt self'.
Proof.
  cbv zeta.
  assert (Hg : _grid_size (state_of (__init__ 20 10)) <> 0)
    by (vm_compute; discriminate).
  split; [exact Hg|].
  destruct (draw_grid_keeps_drawing (state_of (__init__ 20 10)) Hg)
    as (self' & H1 & _ & H3 & H4).
  exists self'. repeat split; assumption.
Defined.

Lemma grid_line_positions_witness :
  let self := state_of (__init__ 20 10) in
  0 < _grid_size self
  /\ (In (line 15 0 15 (winfo_height self) "lightgray" "grid")
         (_canvas (state_of (_draw_grid self)))
      <-> 0 <= 15 < winfo_width self /\ 15 mod _grid_size self = 0).
Proof.
  cbv zeta.
  assert (Hg : 0 < _grid_size (state_of (__init__ 20 10))) by reflexivity.
  split; [exact Hg|].
  exact (proj1 (grid_line_positions (state_of (__init__ 20 10)) 15 0 Hg)).
Defined.

Lemma clear_canvas_leaves_grid_witness :
  let self := state_of (__init__ 20 10) in
  _grid_size self <> 0
  /\ exists self', _clear_canvas self = Ok tt self' /\ drawing self' = [].
Proof.
  cbv zeta.
  assert (Hg : _grid_size (state_of (__init__ 20 10)) <> 0)
    by (vm_compute; discriminate).
  split; [exact Hg|].
  destruct (clear_canvas_leaves_grid (state_of (__init__ 20 10)) Hg)
    as (self' & H1 & _ & H3 & _).
  exists self'. split; assumption.
Defined.

Lemma click_lies_in_its_cell_witness :
  let self := state_of (handle endpoints_only (LineMenu DDA) (state_of (__init__ 20 10))) in
  let e1 := {| event_x := -13; event_y := 27 |} in
  let e2 := {| event_x := 41; event_y := 8 |} in
  reachable endpoints_only self
  /\ _current_line_algorithm self = Some DDA
  /\ _debug_mode self = false
  /\ _start_x self = None
  /\ In (-13 / 5, 27 / 5, "black"%string)
        (endpoints_only DDA (event_x e1 / 5) (Some (event_y e1 / 5))
                        (event_x e2 / 5) (event_y e2 / 5))
  /\ exists x0 y0 : Z,
       In (rectangle x0 y0 (x0 + 5) (y0 + 5) "black" "black")
          (_canvas (mainloop endpoints_only [Button1 e1; Button1 e2] self))
       /\ x0 <= -13 < x0 + 5
       /\ y0 <= 27 < y0 + 5.
Proof.
  cbv zeta.
  assert (Hreach : reachable endpoints_only
            (state_of (handle endpoints_only (LineMenu DDA)
                         (state_of (__init__ 20 10)))))
    by (apply reachable_step, reachable_init).
  assert (Hin : In (-13 / 5, 27 / 5, "black"%string)
            (endpoints_only DDA
               (event_x {| event_x := -13; event_y := 27 |} / 5)
               (Some (event_y {| event_x := -13; event_y := 27 |} / 5))
               (event_x {| event_x := 41; event_y := 8 |} / 5)
               (event_y {| event_x := 41; event_y := 8 |} / 5)))
    by (left; reflexivity).
  split; [exact Hreach|]. do 3 (split; [reflexivity|]).
  split; [exact Hin|].
  exact (click_lies_in_its_cell endpoints_only
           {| event_x := -13; event_y := 27 |}
           {| event_x := 41; event_y := 8 |} DDA (-13) 27 "black" _
           Hreach eq_refl eq_refl eq_refl Hin).
Defined.

Lemma set_line_algorithm_unknown_label_witness :
  let self := state_of (handle endpoints_only (LineMenu DDA) (state_of (__init__ 20 10))) in
  ("Circle" <> "DDA" /\ "Circle" <> "Bresenham" /\ "Circle" <> "Wu")%string
  /\ _set_line_algorithm "Circle" self
     = Ok tt (set_current_line_algorithm None self).
Proof.
  cbv zeta.
  assert (H1 : "Circle"%string <> "DDA"%string) by discriminate.
  assert (H2 : "Circle"%string <> "Bresenham"%string) by discriminate.
  assert (H3 : "Circle"%string <> "Wu"%string) by discriminate.
  split; [repeat split; assumption|].
  exact (proj1 (set_line_algorithm_unknown_label "Circle" _ H1 H2 H3)).
Defined.

Lemma selection_persists_witness :
  let self := state_of (handle endpoints_only (LineMenu DDA) (state_of (__init__ 20 10))) in
  let evs := [Button1 {| event_x := 13; event_y := 27 |}; Configure 30 30;
              DebugMenu; Button1 {| event_x := 41; event_y := 8 |}; AfterDue] in
  reachable endpoints_only self
  /\ _current_line_algorithm self <> None
  /\ _current_line_algorithm (mainloop endpoints_only evs self) <> None
  /\ messagebox (mainloop endpoints_only evs self) = messagebox self.
Proof.
  cbv zeta.
  assert (Hreach : reachable endpoints_only
            (state_of (handle endpoints_only (LineMenu DDA)
                         (state_of (__init__ 20 10)))))
    by (apply reachable_step, reachable_init).
  assert (Hsome : _current_line_algorithm
            (state_of (handle endpoints_only (LineMenu DDA)
                         (state_of (__init__ 20 10)))) <> None)
    by discriminate.
  split; [exact Hreach|]. split; [exact Hsome|].
  exact (selection_persists endpoints_only _ _ Hreach Hsome).
Defined.

Lemma drawing_only_grows_witness :
  let self := state_of (handle endpoints_only (LineMenu DDA) (state_of (__init__ 20 10))) in
  let evs := [Button1 {| event_x := 13; event_y := 27 |}; Configure 30 30;
              Button1 {| event_x := 41; event_y := 8 |}] in
  reachable endpoints_only self
  /\ exists added,
       drawing (mainloop endpoints_only evs self) = drawing self ++ added.
Proof.
  cbv zeta.
  assert (Hreach : reachable endpoints_only
            (state_of (handle endpoints_only (LineMenu DDA)
                         (state_of (__init__ 20 10)))))
    by (apply reachable_step, reachable_init).
  split; [exact Hreach|].
  exact (drawing_only_grows endpoints_only _ _ Hreach).
Defined.

Lemma click_pair_draws_segment_witness :
  let self := state_of (handle endpoints_only (LineMenu DDA) (state_of (__init__ 20 10))) in
  let e1 := {| event_x := 13; event_y := 27 |} in
  let e2 := {| event_x := 41; event_y := 8 |} in
  reachable endpoints_only self
  /\ _current_line_algorithm self = Some DDA
  /\ _debug_mode self = false
  /\ _start_x self = None
  /\ mainloop endpoints_only [Button1 e1; Button1 e2] self
     = set_canvas
         (_canvas self ++ [click_mark e1; click_mark e2] ++
          map (cell_rectangle 5)
              (endpoints_only DDA (event_x e1 / 5) (Some (event_y e1 / 5))
                              (event_x e2 / 5) (event_y e2 / 5)))
         self.
Proof.
  cbv zeta.
  assert (Hreach : reachable endpoints_only
            (state_of (handle endpoints_only (LineMenu DDA)
                         (state_of (__init__ 20 10)))))
    by (apply reachable_step, reachable_init).
  split; [exact Hreach|]. do 3 (split; [reflexivity|]).
  exact (click_pair_draws_segment endpoints_only _ _ DDA _
           Hreach eq_refl eq_refl eq_refl).
Defined.

Lemma algorithm_switch_between_clicks_witness :
  let self := state_of (handle endpoints_only (LineMenu DDA) (state_of (__init__ 20 10))) in
  let e1 := {| event_x := 13; event_y := 27 |} in
  let e2 := {| event_x := 41; event_y := 8 |} in
  reachable endpoints_only self
  /\ _current_line_algorithm self = Some DDA
  /\ _debug_mode self = false
  /\ _start_x self = None
  /\ _current_line_algorithm
       (mainloop endpoints_only [Button1 e1; LineMenu Wu; Button1 e2] self)
     = Some Wu.
Proof.
  cbv zeta.
  assert (Hreach : reachable endpoints_only
            (state_of (handle endpoints_only (LineMenu DDA)
                         (state_of (__init__ 20 10)))))
    by (apply reachable_step, reachable_init).
  split; [exact Hreach|]. do 3 (split; [reflexivity|]).
  rewrite (algorithm_switch_between_clicks endpoints_only
             {| event_x := 13; event_y := 27 |}
             {| event_x := 41; event_y := 8 |} DDA Wu _
             Hreach eq_refl eq_refl eq_refl).
  reflexivity.
Defined.

Lemma debug_click_then_callbacks_witness :
  let self :=
    mainloop endpoints_only
      [LineMenu DDA; DebugMenu; Button1 {| event_x := 13; event_y := 27 |}]
      (state_of (__init__ 20 10)) in
  let event := {| event_x := 41; event_y := 8 |} in
  reachable endpoints_only self
  /\ _debug_mode self = true
  /\ after_queue self = []
  /\ _current_line_algorithm self = Some DDA
  /\ _start_x self = Some 2
  /\ (List.length (endpoints_only DDA 2 (_start_y self)
                     (event_x event / 5) (event_y event / 5)) <= 2)%nat
  /\ _canvas (mainloop endpoints_only (Button1 event :: repeat AfterDue 2) self)
     = _canvas (mainloop endpoints_only [Button1 event]
                  (set_debug_mode false self)).
Proof.
  cbv zeta.
  assert (Hreach : reachable endpoints_only
            (mainloop endpoints_only
               [LineMenu DDA; DebugMenu;
                Button1 {| event_x := 13; event_y := 27 |}]
               (state_of (__init__ 20 10))))
    by (apply mainloop_reachable, reachable_init).
  assert (Hlen : (List.length
            (endpoints_only DDA 2
               (_start_y (mainloop endpoints_only
                  [LineMenu DDA; DebugMenu;
                   Button1 {| event_x := 13; event_y := 27 |}]
                  (state_of (__init__ 20 10))))
               (event_x {| event_x := 41; event_y := 8 |} / 5)
               (event_y {| event_x := 41; event_y := 8 |} / 5)) <= 2)%nat)
    by (vm_compute; lia).
  split; [exact Hreach|]. do 4 (split; [reflexivity|]).
  split; [exact Hlen|].
  exact (proj1 (debug_click_then_callbacks endpoints_only
                  {| event_x := 41; event_y := 8 |} 2 DDA 2 _
                  Hreach eq_refl eq_refl eq_refl eq_refl Hlen)).
Defined.

Lemma nothing_drawn_before_selection_witness :
  let evs := [Button1 {| event_x := 13; event_y := 27 |}; Configure 30 30;
              DebugMenu; Button1 {| event_x := 41; event_y := 8 |}; AfterDue] in
  (forall cls, ~ In (LineMenu cls) evs)
  /\ drawing (main endpoints_only 20 10 evs) = []
  /\ List.length (messagebox (main endpoints_only 20 10 evs)) = 2%nat.
Proof.
  cbv zeta.
  assert (Hno : forall cls,
            ~ In (LineMenu cls)
                 [Button1 {| event_x := 13; event_y := 27 |}; Configure 30 30;
                  DebugMenu; Button1 {| event_x := 41; event_y := 8 |};
                  AfterDue]).
  { intros cls [H|[H|[H|[H|[H|[]]]]]]; discriminate H. }
  split; [exact Hno|].
  destruct (nothing_drawn_before_selection endpoints_only 20 10 _ Hno)
    as (_ & Hd & _ & _ & Hm).
  split; [exact Hd|]. rewrite Hm. reflexivity.
Defined.

End AppProofs.
